(** * KubernetesStatefulsetPatch: a shallow embedding

    Model of [lib/charms/comsys_libs/v0/kubernetes_statefulset_patch.py]:
    the two event handlers [_patch_statefulset] (reconcile) and
    [_remove_statefulset] (teardown) together with their helpers
    [_build_resource_requirements], [_is_patched] and [_namespace].

    Python dictionaries are finite maps, optional model fields are
    [option]s, exceptions are an explicit [Raise] result, and the
    Kubernetes API client, the logger and the namespace file are fields of
    an explicit [World] threaded through a state-and-exception monad. *)

From stdpp Require Import gmap strings list fin_maps pretty.

Open Scope string_scope.

(** ** Python values *)

(** The values a resource dictionary can hold: [None], a [str] or an
    [int] (the documented usages are quantity strings such as ["1Gi"] and
    integers such as [1]). *)
Inductive pyval : Type :=
  | PyNone
  | PyStr (s : string)
  | PyInt (n : Z).

#[global] Instance pyval_eq_dec : EqDecision pyval.
Proof. solve_decision. Defined.

(** [str(v)] *)
Definition py_str (v : pyval) : string :=
  match v with
  | PyNone => "None"
  | PyStr s => s
  | PyInt n => pretty n
  end.

(** [a == b] on the values above. *)
Definition py_eq (a b : pyval) : bool := bool_decide (a = b).

(** A [dict] with string keys. *)
Abbreviation dict := (gmap string pyval).

(** [d.get(key)]: the value, or [None] when the key is absent. *)
Definition dict_get (d : dict) (key : string) : pyval :=
  default PyNone (d !! key).

(** [d or {}] for an optional dictionary. *)
Definition or_empty (d : option dict) : dict := default ∅ d.

(** ** The lightkube models the handlers dereference

    Only the attribute path [statefulset.spec.template.spec.containers] and
    the container fields are spelled out; every attribute that the models
    declare [Optional] is an [option] here. *)

Record ResourceRequirements : Type := mkResourceRequirements {
  rr_claims : option (list string);
  rr_limits : option dict;
  rr_requests : option dict
}.

Record Container : Type := mkContainer {
  container_name : string;
  container_image : option string;
  container_resources : option ResourceRequirements
}.

Record PodSpec : Type := mkPodSpec {
  containers : list Container
}.

Record PodTemplateSpec : Type := mkPodTemplateSpec {
  template_spec : option PodSpec
}.

Record StatefulSetSpec : Type := mkStatefulSetSpec {
  serviceName : string;
  template : PodTemplateSpec
}.

Record StatefulSet : Type := mkStatefulSet {
  spec : option StatefulSetSpec
}.

#[global] Instance ResourceRequirements_eq_dec : EqDecision ResourceRequirements.
Proof. solve_decision. Defined.
#[global] Instance Container_eq_dec : EqDecision Container.
Proof. solve_decision. Defined.
#[global] Instance PodSpec_eq_dec : EqDecision PodSpec.
Proof. solve_decision. Defined.
#[global] Instance PodTemplateSpec_eq_dec : EqDecision PodTemplateSpec.
Proof. solve_decision. Defined.
#[global] Instance StatefulSetSpec_eq_dec : EqDecision StatefulSetSpec.
Proof. solve_decision. Defined.
#[global] Instance StatefulSet_eq_dec : EqDecision StatefulSet.
Proof. solve_decision. Defined.

(** [container.resources = r] *)
Definition set_resources (container : Container) (r : ResourceRequirements)
  : Container :=
  {| container_name := container_name container;
     container_image := container_image container;
     container_resources := Some r |}.

(** ** Exceptions *)

Inductive exn : Type :=
  | ConfigError                (* lightkube.core.exceptions.ConfigError *)
  | ApiError (code : Z)        (* lightkube.ApiError, with e.status.code *)
  | AttributeError             (* attribute access on None *)
  | OSError                    (* open() of the namespace file failed *)
  | UnicodeDecodeError.        (* read() met bytes that are not UTF-8 *)

#[global] Instance exn_eq_dec : EqDecision exn.
Proof. solve_decision. Defined.

Inductive result (A : Type) : Type :=
  | Ok (a : A)
  | Raise (e : exn).
Arguments Ok {A} a.
Arguments Raise {A} e.

(** ** Pure helpers of the class *)

(** [_build_resource_requirements(self, resources)] *)
Definition _build_resource_requirements (resources : dict)
  : ResourceRequirements :=
  let limits : dict := ∅ in
  let requests : dict := ∅ in
  let '(limits, requests) :=
    match resources !! "memory" with
    | Some v => (<["memory" := v]> limits, <["memory" := v]> requests)
    | None => (limits, requests)
    end in
  let '(limits, requests) :=
    match resources !! "cpu" with
    | Some v => (<["cpu" := PyStr (py_str v)]> limits,
                 <["cpu" := PyStr (py_str v)]> requests)
    | None => (limits, requests)
    end in
  {| rr_claims := None; rr_limits := Some limits; rr_requests := Some requests |}.

(** The two conjuncts computed by [_is_patched], on the dictionaries it
    extracts. *)
Definition is_memory_patched (current_limits current_requests resources : dict)
  : bool :=
  let desired_memory := dict_get resources "memory" in
  py_eq (dict_get current_limits "memory") desired_memory
  && py_eq (dict_get current_requests "memory") desired_memory.

Definition is_cpu_patched (current_limits current_requests resources : dict)
  : bool :=
  let desired_cpu := PyStr (py_str (dict_get resources "cpu")) in
  py_eq (dict_get current_limits "cpu") desired_cpu
  && py_eq (dict_get current_requests "cpu") desired_cpu.

(** [_is_patched(self, container, resources)].  [container.resources] is
    dereferenced unguarded, so a container without a resources object
    raises [AttributeError]. *)
Definition _is_patched (container : Container) (resources : dict)
  : result bool :=
  match container_resources container with
  | None => Raise AttributeError
  | Some r =>
      let current_limits := or_empty (rr_limits r) in
      let current_requests := or_empty (rr_requests r) in
      Ok (is_memory_patched current_limits current_requests resources
          && is_cpu_patched current_limits current_requests resources)
  end.

(** The body of the [for container in ...containers] loop of
    [_patch_statefulset]: the containers as mutated so far and the
    [needs_patching] flag are threaded through; an exception raised by
    [_is_patched] leaves the loop. *)
Fixpoint patch_containers (resource_updates : gmap string dict)
    (cs : list Container) (needs_patching : bool)
  : result (list Container * bool) :=
  match cs with
  | [] => Ok ([], needs_patching)
  | container :: rest =>
      match resource_updates !! container_name container with
      | Some resources =>
          match _is_patched container resources with
          | Raise e => Raise e
          | Ok true =>                                   (* continue *)
              match patch_containers resource_updates rest needs_patching with
              | Ok (rest', n) => Ok (container :: rest', n)
              | Raise e => Raise e
              end
          | Ok false =>
              let container' :=
                set_resources container
                  (_build_resource_requirements resources) in
              match patch_containers resource_updates rest true with
              | Ok (rest', n) => Ok (container' :: rest', n)
              | Raise e => Raise e
              end
          end
      | None =>
          match patch_containers resource_updates rest needs_patching with
          | Ok (rest', n) => Ok (container :: rest', n)
          | Raise e => Raise e
          end
      end
  end.

(** [statefulset.spec.template.spec.containers]; both [spec] attributes
    are optional in the models, and reading through [None] raises. *)
Definition get_containers (statefulset : StatefulSet)
  : result (list Container) :=
  match spec statefulset with
  | None => Raise AttributeError
  | Some s =>
      match template_spec (template s) with
      | None => Raise AttributeError
      | Some p => Ok (containers p)
      end
  end.

(** The object [statefulset] after the loop has mutated its containers in
    place. *)
Definition set_containers (statefulset : StatefulSet) (cs : list Container)
  : StatefulSet :=
  match spec statefulset with
  | None => statefulset
  | Some s =>
      {| spec := Some
           {| serviceName := serviceName s;
              template :=
                {| template_spec :=
                     match template_spec (template s) with
                     | None => None
                     | Some _ => Some {| containers := cs |}
                     end |} |} |}
  end.

(** ** The world outside the library *)

(** *** Reading a text file

    A Python [str] is kept here as its UTF-8 encoding, a file as the bytes
    it holds.  [open(path, "r")] followed by [read()] decodes the bytes
    with the encoding of the locale, taken to be UTF-8 (the C and UTF-8
    locales of the Python versions the charm runs on), with errors
    ["strict"], and translates every line ending to a line feed. *)

Definition byte (a : Ascii.ascii) : N := Ascii.N_of_ascii a.

(** A continuation byte, [10xxxxxx]. *)
Definition continuation (b : N) : bool := ((128 <=? b) && (b <=? 191))%N.

(** The code points of a UTF-8 byte string; [None] where the strict
    decoder raises (stray or missing continuation bytes, overlong forms,
    surrogates, code points above U+10FFFF). *)
Fixpoint utf8_decode (s : string) : option (list N) :=
  match s with
  | EmptyString => Some []
  | String a0 s1 =>
      let b0 := byte a0 in
      if (b0 <? 128)%N then cons b0 <$> utf8_decode s1
      else if ((194 <=? b0) && (b0 <=? 223))%N then
        match s1 with
        | String a1 s2 =>
            let b1 := byte a1 in
            if continuation b1
            then cons ((b0 - 192) * 64 + (b1 - 128))%N <$> utf8_decode s2
            else None
        | _ => None
        end
      else if ((224 <=? b0) && (b0 <=? 239))%N then
        match s1 with
        | String a1 (String a2 s3) =>
            let b1 := byte a1 in
            let b2 := byte a2 in
            if (if (b0 =? 224)%N then ((160 <=? b1) && (b1 <=? 191))%N
                else if (b0 =? 237)%N then ((128 <=? b1) && (b1 <=? 159))%N
                else continuation b1)
               && continuation b2
            then cons ((b0 - 224) * 4096 + (b1 - 128) * 64 + (b2 - 128))%N
                   <$> utf8_decode s3
            else None
        | _ => None
        end
      else if ((240 <=? b0) && (b0 <=? 244))%N then
        match s1 with
        | String a1 (String a2 (String a3 s4)) =>
            let b1 := byte a1 in
            let b2 := byte a2 in
            let b3 := byte a3 in
            if (if (b0 =? 240)%N then ((144 <=? b1) && (b1 <=? 191))%N
                else if (b0 =? 244)%N then ((128 <=? b1) && (b1 <=? 143))%N
                else continuation b1)
               && continuation b2 && continuation b3
            then cons ((b0 - 240) * 262144 + (b1 - 128) * 4096
                       + (b2 - 128) * 64 + (b3 - 128))%N
                   <$> utf8_decode s4
            else None
        | _ => None
        end
      else None
  end.

Definition bytes (l : list N) : string :=
  foldr (λ b s, String (Ascii.ascii_of_N b) s) EmptyString l.

(** The UTF-8 encoding of one code point. *)
Definition utf8_encode_char (c : N) : string :=
  (if c <? 128 then bytes [c]
   else if c <? 2048 then bytes [192 + c / 64; 128 + c mod 64]
   else if c <? 65536
        then bytes [224 + c / 4096; 128 + (c / 64) mod 64; 128 + c mod 64]
   else bytes [240 + c / 262144; 128 + (c / 4096) mod 64;
               128 + (c / 64) mod 64; 128 + c mod 64])%N.

Fixpoint utf8_encode (t : list N) : string :=
  match t with
  | [] => EmptyString
  | c :: t' => utf8_encode_char c +:+ utf8_encode t'
  end.

(** Universal newlines (the default [newline=None] of [open]): CR LF and
    a lone CR are read as LF. *)
Fixpoint universal_newlines (t : list N) : list N :=
  match t with
  | [] => []
  | c :: rest =>
      if (c =? 13)%N then
        match rest with
        | c' :: rest' =>
            if (c' =? 10)%N then 10%N :: universal_newlines rest'
            else 10%N :: universal_newlines rest
        | [] => [10%N]
        end
      else c :: universal_newlines rest
  end.

(** [f.read()] on a file opened in text mode. *)
Definition read_text (content : string) : option (list N) :=
  universal_newlines <$> utf8_decode content.

(** [str.isspace] of one character: the whitespace code points of
    Unicode (U+0009-000D, U+001C-0020, U+0085, U+00A0, U+1680,
    U+2000-200A, U+2028, U+2029, U+202F, U+205F, U+3000). *)
Definition py_isspace (c : N) : bool :=
  (((9 <=? c) && (c <=? 13)) || ((28 <=? c) && (c <=? 32))
   || (c =? 133) || (c =? 160) || (c =? 5760)
   || ((8192 <=? c) && (c <=? 8202))
   || (c =? 8232) || (c =? 8233) || (c =? 8239) || (c =? 8287)
   || (c =? 12288))%N.

Fixpoint lstrip (t : list N) : list N :=
  match t with
  | c :: t' => if py_isspace c then lstrip t' else t
  | [] => []
  end.

(** [str.strip()] *)
Definition strip (t : list N) : list N :=
  reverse (lstrip (reverse (lstrip t))).

Inductive Verb : Type := VGet | VPatch | VDelete.

#[global] Instance Verb_eq_dec : EqDecision Verb.
Proof. solve_decision. Defined.

(** One request sent to the API server for the StatefulSet kind. *)
Inductive Call : Type :=
  | GET (namespace name : string)
  | PATCH (namespace name : string) (obj : StatefulSet)   (* PatchType.MERGE *)
  | DELETE (namespace name : string).

Inductive LogRecord : Type :=
  | INFO_patched (name : string)
  | DEBUG_no_updates (name : string)
  | ERROR_failed_to_patch (e : exn)
  | INFO_deleted (name : string).

(** The API server is a store of StatefulSets keyed by (namespace, name).
    A merge patch replaces JSON arrays whole, and the containers of a pod
    template are an array, so a successful PATCH leaves the submitted
    containers as the live ones; the store keeps the submitted object. *)
Record World : Type := mkWorld {
  kube_config : bool;                 (* a client configuration can be loaded *)
  namespace_file : option string;     (* bytes of .../serviceaccount/namespace,
                                         None when it cannot be opened *)
  cluster : gmap (string * string) StatefulSet;
  api_fault : Verb → option Z;        (* status code the server answers with *)
  api_calls : list Call;              (* requests sent so far, oldest first *)
  log : list LogRecord                (* records emitted so far, oldest first *)
}.

Definition record_call (c : Call) (w : World) : World :=
  {| kube_config := kube_config w; namespace_file := namespace_file w;
     cluster := cluster w; api_fault := api_fault w;
     api_calls := api_calls w ++ [c]; log := log w |}.

Definition record_log (r : LogRecord) (w : World) : World :=
  {| kube_config := kube_config w; namespace_file := namespace_file w;
     cluster := cluster w; api_fault := api_fault w;
     api_calls := api_calls w; log := log w ++ [r] |}.

Definition set_cluster (c : gmap (string * string) StatefulSet) (w : World)
  : World :=
  {| kube_config := kube_config w; namespace_file := namespace_file w;
     cluster := c; api_fault := api_fault w;
     api_calls := api_calls w; log := log w |}.

(** ** State and exceptions *)

Definition M (A : Type) : Type := World → result A * World.

#[global] Instance M_ret : MRet M := λ A a w, (Ok a, w).

#[global] Instance M_bind : MBind M := λ A B k m w,
  match m w with
  | (Ok a, w') => k a w'
  | (Raise e, w') => (Raise e, w')
  end.

Definition raise {A : Type} (e : exn) : M A := λ w, (Raise e, w).

Definition lift {A : Type} (r : result A) : M A := λ w, (r, w).

(** [try: body  except ...: handler]; the handler decides which
    exceptions it catches. *)
Definition try_except {A : Type} (body : M A) (handler : exn → M A) : M A :=
  λ w,
    match body w with
    | (Ok a, w') => (Ok a, w')
    | (Raise e, w') => handler e w'
    end.

Definition logger (r : LogRecord) : M unit := λ w, (Ok tt, record_log r w).

(** *** lightkube's client *)

(** [Client()] *)
Definition Client : M unit := λ w,
  if kube_config w then (Ok tt, w) else (Raise ConfigError, w).

Definition respond {A : Type} (v : Verb) (found : M A) : M A := λ w,
  match api_fault w v with
  | Some code => (Raise (ApiError code), w)
  | None => found w
  end.

(** [client.get(StatefulSet, name=..., namespace=...)] *)
Definition client_get (namespace name : string) : M StatefulSet := λ w,
  respond VGet
    (λ w, match cluster w !! (namespace, name) with
          | Some obj => (Ok obj, w)
          | None => (Raise (ApiError 404), w)
          end)
    (record_call (GET namespace name) w).

(** [client.patch(StatefulSet, name=..., namespace=..., obj=...,
    patch_type=PatchType.MERGE)] *)
Definition client_patch (namespace name : string) (obj : StatefulSet)
  : M unit := λ w,
  respond VPatch
    (λ w, match cluster w !! (namespace, name) with
          | Some _ =>
              (Ok tt, set_cluster (<[(namespace, name) := obj]> (cluster w)) w)
          | None => (Raise (ApiError 404), w)
          end)
    (record_call (PATCH namespace name obj) w).

(** [client.delete(StatefulSet, name, namespace=...)] *)
Definition client_delete (namespace name : string) : M unit := λ w,
  respond VDelete
    (λ w, match cluster w !! (namespace, name) with
          | Some _ =>
              (Ok tt, set_cluster (delete (namespace, name) (cluster w)) w)
          | None => (Raise (ApiError 404), w)
          end)
    (record_call (DELETE namespace name) w).

(** ** The class *)

(** The attributes of [self] the handlers read: [statefulset_name] (the
    application name) and [resource_updates]. *)
Record KubernetesStatefulsetPatch : Type := mkKubernetesStatefulsetPatch {
  statefulset_name : string;
  resource_updates : gmap string dict
}.

(** [open(path, "r")], [f.read().strip()] on a file that is absent
    ([None]) or holds the bytes [content]. *)
Definition namespace_of (file : option string) : result string :=
  match file with
  | None => Raise OSError
  | Some content =>
      match read_text content with
      | Some text => Ok (utf8_encode (strip text))
      | None => Raise UnicodeDecodeError
      end
  end.
Arguments namespace_of : simpl never.

(** The [_namespace] property: read at every use, stripped. *)
Definition _namespace : M string := λ w,
  (namespace_of (namespace_file w), w).

(** [_patch_statefulset(self, event)] *)
Definition _patch_statefulset (self : KubernetesStatefulsetPatch) : M unit :=
  try_except
    (Client;;
     namespace ← _namespace;
     statefulset ← client_get namespace (statefulset_name self);
     cs ← lift (get_containers statefulset);
     r ← lift (patch_containers (resource_updates self) cs false);
     let '(cs', needs_patching) := r in
     if needs_patching : bool then
       namespace ← _namespace;
       client_patch namespace (statefulset_name self)
         (set_containers statefulset cs');;
       logger (INFO_patched (statefulset_name self))
     else
       logger (DEBUG_no_updates (statefulset_name self)))
    (λ e,
       match e with
       | ConfigError | ApiError _ => logger (ERROR_failed_to_patch e);; raise e
       | _ => raise e
       end).

(** [_remove_statefulset(self, _)] *)
Definition _remove_statefulset (self : KubernetesStatefulsetPatch) : M unit :=
  Client;;
  try_except
    (namespace ← _namespace;
     client_delete namespace (statefulset_name self);;
     logger (INFO_deleted (statefulset_name self)))
    (λ e,
       match e with
       | ApiError code => if (code =? 404)%Z then mret tt else raise e
       | _ => raise e
       end).

(** ** Construction and event binding *)

(** A bound event of the charm, [charm.on.<name>]. *)
Inductive BoundEvent : Type := on (name : string).

#[global] Instance BoundEvent_eq_dec : EqDecision BoundEvent.
Proof. solve_decision. Defined.

(** The two bound methods handed to [framework.observe]. *)
Inductive Handler : Type :=
  | patch_statefulset_method
  | remove_statefulset_method.

#[global] Instance Handler_eq_dec : EqDecision Handler.
Proof. solve_decision. Defined.

(** The argument [refresh_event]:
    [Optional[Union[BoundEvent, List[BoundEvent]]]]. *)
Inductive RefreshEvent : Type :=
  | refresh_None
  | refresh_event (evt : BoundEvent)
  | refresh_events (evts : list BoundEvent).

(** The part of the charm the constructor reads: [charm.app.name]. *)
Record CharmBase : Type := mkCharmBase {
  app_name : string
}.

(** The [_app] property. *)
Definition _app (charm : CharmBase) : string := app_name charm.

(** [framework.observe(evt, handler)], on the list of registrations made
    so far, oldest first. *)
Definition observe (evt : BoundEvent) (handler : Handler)
    (observers : list (BoundEvent * Handler)) : list (BoundEvent * Handler) :=
  observers ++ [(evt, handler)].

(** [__init__(self, charm, resource_updates, refresh_event)]: the object
    built, and the registrations it has made with the framework. *)
Definition __init__ (charm : CharmBase) (resource_updates : gmap string dict)
    (refresh : RefreshEvent)
  : KubernetesStatefulsetPatch * list (BoundEvent * Handler) :=
  let self :=
    {| statefulset_name := _app charm;
       resource_updates := resource_updates |} in
  let observers := observe (on "install") patch_statefulset_method [] in
  let observers :=
    observe (on "update_status") patch_statefulset_method observers in
  let observers := observe (on "remove") remove_statefulset_method observers in
  let observers :=
    match refresh with
    | refresh_None => observers                      (* falsy *)
    | refresh_events [] => observers                 (* falsy *)
    | refresh_event evt =>                           (* wrapped in a list *)
        foldl (λ obs evt, observe evt patch_statefulset_method obs)
          observers [evt]
    | refresh_events evts =>
        foldl (λ obs evt, observe evt patch_statefulset_method obs)
          observers evts
    end in
  (self, observers).

(** The events of a [refresh_event] argument. *)
Definition refresh_list (refresh : RefreshEvent) : list BoundEvent :=
  match refresh with
  | refresh_None => []
  | refresh_event evt => [evt]
  | refresh_events evts => evts
  end.

(** ** Vocabulary for the statements *)

(** The drift check of a container returns a verdict: the container is
    not managed, or it has a resources object to compare. *)
Definition checkable (resource_updates : gmap string dict) (c : Container)
  : bool :=
  match resource_updates !! container_name c, container_resources c with
  | Some _, None => false
  | _, _ => true
  end.

(** The container is managed and its drift check answers [False]. *)
Definition drifted (resource_updates : gmap string dict) (c : Container)
  : bool :=
  match resource_updates !! container_name c with
  | Some resources =>
      match _is_patched c resources with
      | Ok false => true
      | _ => false
      end
  | None => false
  end.

(** What one iteration of the loop leaves in place of [c]. *)
Definition reconcile_container (resource_updates : gmap string dict)
    (c : Container) : Container :=
  match resource_updates !! container_name c with
  | Some resources =>
      match _is_patched c resources with
      | Ok false => set_resources c (_build_resource_requirements resources)
      | _ => c
      end
  | None => c
  end.

Definition is_patch (c : Call) : bool :=
  match c with PATCH _ _ _ => true | _ => false end.

(** The requests a handler run [m] adds to the trace of [w]. *)
Definition new_calls {A : Type} (m : M A) (w : World) : list Call :=
  drop (length (api_calls w)) (api_calls (snd (m w))).

Definition new_logs {A : Type} (m : M A) (w : World) : list LogRecord :=
  drop (length (log w)) (log (snd (m w))).

(** The initial GET of a reconcile finds [statefulset]. *)
Definition get_finds (self : KubernetesStatefulsetPatch) (w : World)
    (namespace : string) (statefulset : StatefulSet) : Prop :=
  kube_config w = true
  ∧ fst (_namespace w) = Ok namespace
  ∧ fst (client_get namespace (statefulset_name self) w) = Ok statefulset.

(** The container is not managed, or its drift check answers [True]. *)
Definition in_sync (resource_updates : gmap string dict) (c : Container)
  : bool :=
  match resource_updates !! container_name c with
  | Some resources =>
      match _is_patched c resources with
      | Ok true => true
      | _ => false
      end
  | None => true
  end.

Definition patch_count (calls : list Call) : nat :=
  length (List.filter is_patch calls).

(** Two dictionaries that agree on every key but [key]. *)
Definition agree_except (key : string) (a b : dict) : Prop :=
  ∀ k, k ≠ key → a !! k = b !! k.

(** The text [t] is empty or starts with a character that is not
    whitespace. *)
Definition clean_start (t : list N) : bool :=
  match t with
  | c :: _ => negb (py_isspace c)
  | [] => true
  end.

(** The bytes of [s], as numbers. *)
Fixpoint byte_values (s : string) : list N :=
  match s with
  | String a s' => byte a :: byte_values s'
  | EmptyString => []
  end.

(** Every byte of [s] is an ASCII character that is not whitespace. *)
Fixpoint plain (s : string) : bool :=
  match s with
  | String a s' => (byte a <? 128)%N && negb (py_isspace (byte a)) && plain s'
  | EmptyString => true
  end.

(** The limits and the requests of [a] and [b] hold the same memory and
    the same cpu. *)
Definition same_memory_cpu (a b : ResourceRequirements) : Prop :=
  ∀ key, key = "memory" ∨ key = "cpu" →
    or_empty (rr_limits a) !! key = or_empty (rr_limits b) !! key
    ∧ or_empty (rr_requests a) !! key = or_empty (rr_requests b) !! key.

(** ** Concrete objects for the examples *)

(** A resources object whose limits and requests are both [l]. *)
Definition quantities (l : list (string * pyval)) : ResourceRequirements :=
  {| rr_claims := None;
     rr_limits := Some (list_to_map l);
     rr_requests := Some (list_to_map l) |}.

Definition a_container (name : string) (r : option ResourceRequirements)
  : Container :=
  {| container_name := name; container_image := Some "registry/image:1";
     container_resources := r |}.

Definition a_statefulset (cs : list Container) : StatefulSet :=
  {| spec := Some
       {| serviceName := "my-app-endpoints";
          template := {| template_spec := Some {| containers := cs |} |} |} |}.

(** A cluster holding [obj] as StatefulSet [my-app] of namespace
    [my-model], reachable, with nothing sent or logged yet. *)
Definition a_world (obj : StatefulSet) : World :=
  {| kube_config := true;
     namespace_file := Some ("my-model" +:+ String (Ascii.ascii_of_nat 10) "");
     cluster := {[ ("my-model", "my-app") := obj ]};
     api_fault := λ _, None;
     api_calls := [];
     log := [] |}.

Definition a_patcher (ru : gmap string dict) : KubernetesStatefulsetPatch :=
  {| statefulset_name := "my-app"; resource_updates := ru |}.

(** Desired resources for both containers, cpu given as integers. *)
Definition desired_both : gmap string dict :=
  {[ "charm" := {[ "memory" := PyStr "1Gi"; "cpu" := PyInt 1 ]};
     "app" := {[ "memory" := PyStr "2Gi"; "cpu" := PyInt 2 ]} ]}.

Definition live_both : list Container :=
  [ a_container "charm"
      (Some (quantities [("memory", PyStr "512Mi"); ("cpu", PyStr "1")]));
    a_container "app"
      (Some (quantities [("memory", PyStr "2Gi"); ("cpu", PyStr "2")])) ].

(** Desired resources that name only the memory of [charm]. *)
Definition desired_memory_only : gmap string dict :=
  {[ "charm" := {[ "memory" := PyStr "1Gi" ]} ]}.

Definition live_memory_only : list Container :=
  [ a_container "charm" (Some (quantities [("memory", PyStr "512Mi")])) ].

(** Desired resources whose spec for [charm] has neither key. *)
Definition desired_empty : gmap string dict := {[ "charm" := ∅ ]}.

(** A live [charm] with no resources object at all, next to a drifted
    [app]. *)
Definition live_no_resources : list Container :=
  [ a_container "app" (Some (quantities [("memory", PyStr "1Gi")]));
    a_container "charm" None ].

(** A live [charm] whose resources object has neither limits nor
    requests. *)
Definition live_null_maps : list Container :=
  [ a_container "charm"
      (Some {| rr_claims := None; rr_limits := None; rr_requests := None |}) ].

(** The world [w] with the server answering every request of verb [v]
    with status [code]. *)
Definition with_fault (v : Verb) (code : Z) (w : World) : World :=
  {| kube_config := kube_config w; namespace_file := namespace_file w;
     cluster := cluster w;
     api_fault := λ v', if bool_decide (v' = v) then Some code
                        else api_fault w v';
     api_calls := api_calls w; log := log w |}.

(** The initial GET of a reconcile fails with [e]: no client can be
    configured, or the server answers the GET with an error. *)
Definition get_raises (self : KubernetesStatefulsetPatch) (w : World)
    (e : exn) : Prop :=
  (kube_config w = false ∧ e = ConfigError)
  ∨ (kube_config w = true
     ∧ ∃ namespace,
         fst (_namespace w) = Ok namespace
         ∧ fst (client_get namespace (statefulset_name self) w) = Raise e).

(** * Properties *)

(** ** The loop *)

Lemma patch_containers_checkable ru cs b :
  forallb (checkable ru) cs = true →
  patch_containers ru cs b
  = Ok (reconcile_container ru <$> cs, b || existsb (drifted ru) cs).
Proof.
  revert b. induction cs as [|c cs IH]; intros b Hall; simpl in *.
  - by rewrite orb_false_r.
  - apply andb_true_iff in Hall as [Hc Hcs].
    rewrite !IH by done. clear IH Hcs.
    unfold checkable, drifted, reconcile_container, _is_patched in *.
    destruct (ru !! container_name c) as [r|]; simpl; [|done].
    destruct (container_resources c) as [rr|]; [|done].
    destruct (is_memory_patched _ _ _ && is_cpu_patched _ _ _); simpl;
      [done | by rewrite orb_true_r].
Qed.

Lemma patch_containers_uncheckable ru cs b :
  forallb (checkable ru) cs = false →
  patch_containers ru cs b = Raise AttributeError.
Proof.
  revert b. induction cs as [|c cs IH]; intros b Hall; simpl in *; [done|].
  apply andb_false_iff in Hall.
  unfold checkable, _is_patched in *.
  destruct (ru !! container_name c) as [r|]; simpl.
  - destruct (container_resources c) as [rr|]; [|done].
    destruct Hall as [|Hall]; [done|].
    destruct (is_memory_patched _ _ _ && is_cpu_patched _ _ _);
      by rewrite IH.
  - destruct Hall as [|Hall]; [done|]. by rewrite IH.
Qed.

Lemma get_set_containers statefulset cs cs' :
  get_containers statefulset = Ok cs →
  get_containers (set_containers statefulset cs') = Ok cs'.
Proof.
  unfold get_containers, set_containers.
  destruct (spec statefulset) as [s|]; [|done]; simpl.
  by destruct (template_spec (template s)).
Qed.

Lemma py_eq_refl a : py_eq a a = true.
Proof. unfold py_eq. by apply bool_decide_eq_true_2. Qed.

Lemma py_eq_true a b : py_eq a b = true ↔ a = b.
Proof. unfold py_eq. apply bool_decide_eq_true. Qed.

(** The desired state passes its own cpu comparison exactly when the
    desired spec names a cpu. *)
Lemma build_is_cpu_patched (resources : dict) :
  is_Some (resources !! "cpu") →
  let r := _build_resource_requirements resources in
  is_cpu_patched (or_empty (rr_limits r)) (or_empty (rr_requests r)) resources
  = true.
Proof.
  intros [v Hv]. unfold _build_resource_requirements, is_cpu_patched, dict_get.
  rewrite Hv. destruct (resources !! "memory"); simpl;
    rewrite !lookup_insert_eq; simpl; by rewrite py_eq_refl.
Qed.

Lemma build_is_memory_patched (resources : dict) :
  let r := _build_resource_requirements resources in
  is_memory_patched (or_empty (rr_limits r)) (or_empty (rr_requests r))
    resources = true.
Proof.
  unfold _build_resource_requirements, is_memory_patched, dict_get.
  destruct (resources !! "memory") as [m|], (resources !! "cpu") as [v|];
    simpl; rewrite ?lookup_insert_ne by done;
    rewrite ?lookup_insert_eq, ?lookup_empty; simpl;
    by rewrite py_eq_refl.
Qed.

(** ** Runs of the reconcile handler *)

Lemma get_finds_inv self w namespace statefulset :
  get_finds self w namespace statefulset →
  kube_config w = true
  ∧ namespace_of (namespace_file w) = Ok namespace
  ∧ api_fault w VGet = None
  ∧ cluster w !! (namespace, statefulset_name self) = Some statefulset.
Proof.
  intros (Hcfg & Hns & Hget). split; [done|]. split; [done|].
  unfold client_get, respond in Hget. simpl in *.
  destruct (api_fault w VGet); [done|].
  destruct (cluster w !! (namespace, statefulset_name self)); [|done].
  simpl in *. split; congruence.
Qed.

(** The property raises nothing but the errors of opening and of
    decoding the file. *)
Lemma namespace_of_raise file e :
  namespace_of file = Raise e → e = OSError ∨ e = UnicodeDecodeError.
Proof.
  unfold namespace_of. destruct file as [content|]; [|intros [= <-]; auto].
  destruct (read_text content); [done|]. intros [= <-]. auto.
Qed.

(** Case analysis on the namespace read in world [w]: a namespace [ns],
    or one of the two errors. *)
Ltac case_namespace w ns H :=
  let e := fresh "e" in
  destruct (namespace_of (namespace_file w)) as [ns|e] eqn:H;
  [|let H' := fresh in
    pose proof (namespace_of_raise _ _ H) as H'; destruct H' as [->| ->]].

(** A reconcile whose GET finds the object, step by step. *)
Lemma patch_statefulset_run self w namespace statefulset cs :
  get_finds self w namespace statefulset →
  get_containers statefulset = Ok cs →
  _patch_statefulset self w =
    let ru := resource_updates self in
    let name := statefulset_name self in
    let w1 := record_call (GET namespace name) w in
    if forallb (checkable ru) cs then
      if existsb (drifted ru) cs then
        let obj := set_containers statefulset (reconcile_container ru <$> cs) in
        let w2 := record_call (PATCH namespace name obj) w1 in
        match api_fault w VPatch with
        | Some code =>
            (Raise (ApiError code),
             record_log (ERROR_failed_to_patch (ApiError code)) w2)
        | None =>
            (Ok tt,
             record_log (INFO_patched name)
               (set_cluster (<[(namespace, name) := obj]> (cluster w)) w2))
        end
      else (Ok tt, record_log (DEBUG_no_updates name) w1)
    else (Raise AttributeError, w1).
Proof.
  intros Hget Hcs.
  apply get_finds_inv in Hget as (Hcfg & Hns & Hfault & Hobj).
  unfold _patch_statefulset, try_except, mbind, M_bind, Client, _namespace,
    client_get, client_patch, respond, lift, logger, raise. simpl.
  rewrite Hcfg. simpl. rewrite Hns. simpl. rewrite Hfault, Hobj, Hcs. simpl.
  destruct (forallb (checkable (resource_updates self)) cs) eqn:Hchk.
  - rewrite patch_containers_checkable by done. simpl.
    destruct (existsb (drifted (resource_updates self)) cs); simpl; [|done].
    rewrite Hns. simpl.
    destruct (api_fault w VPatch); simpl; [done|].
    by rewrite Hobj.
  - by rewrite patch_containers_uncheckable.
Qed.

(** Either the GET of a reconcile finds an object with a container list,
    or the reconcile sends no PATCH. *)
Lemma patch_statefulset_get_cases self w :
  (∃ namespace statefulset cs,
     get_finds self w namespace statefulset
     ∧ get_containers statefulset = Ok cs)
  ∨ (∀ c, c ∈ new_calls (_patch_statefulset self) w → is_patch c = false).
Proof.
  destruct (kube_config w) eqn:Hcfg; cycle 1.
  { right. intros c. unfold new_calls, _patch_statefulset, try_except, mbind,
      M_bind, Client, logger, raise. simpl. rewrite Hcfg. simpl.
    rewrite drop_all. by intros ?%elem_of_nil. }
  case_namespace w ns Hfile; cycle 1.
  { right. intros c. unfold new_calls, _patch_statefulset, try_except, mbind,
      M_bind, Client, _namespace, logger, raise. simpl.
    rewrite Hcfg. simpl. rewrite Hfile. simpl.
    rewrite drop_all. by intros ?%elem_of_nil. }
  { right. intros c. unfold new_calls, _patch_statefulset, try_except, mbind,
      M_bind, Client, _namespace, logger, raise. simpl.
    rewrite Hcfg. simpl. rewrite Hfile. simpl.
    rewrite drop_all. by intros ?%elem_of_nil. }
  destruct (fst (client_get ns (statefulset_name self) w))
    as [statefulset|e] eqn:Hget; cycle 1.
  { right. intros c. revert Hget.
    unfold new_calls, _patch_statefulset, try_except, mbind, M_bind, Client,
      _namespace, client_get, respond, logger, raise. simpl.
    rewrite Hcfg. simpl. rewrite Hfile. simpl.
    destruct (api_fault w VGet); simpl;
      [rewrite drop_app_length; by intros _ ->%list_elem_of_singleton|].
    destruct (cluster w !! (ns, statefulset_name self)); simpl;
      [done|].
    rewrite drop_app_length. by intros _ ->%list_elem_of_singleton. }
  assert (get_finds self w ns statefulset) as Hfinds.
  { by unfold get_finds, _namespace. }
  destruct (get_containers statefulset) as [cs|e] eqn:Hcs;
    [left; by exists ns, statefulset, cs|].
  right. intros c.
  apply get_finds_inv in Hfinds as (_ & _ & Hfault & Hobj).
  unfold new_calls, _patch_statefulset, try_except, mbind, M_bind, Client,
    _namespace, client_get, respond, lift, logger, raise. simpl.
  rewrite Hcfg. simpl. rewrite Hfile. simpl. rewrite Hfault, Hobj, Hcs. simpl.
  destruct e; simpl; rewrite drop_app_length;
    by intros ->%list_elem_of_singleton.
Qed.

(** Every PATCH a reconcile sends carries the live object with each
    container replaced by its [reconcile_container]. *)
Lemma patch_submitted self w namespace name obj :
  PATCH namespace name obj ∈ new_calls (_patch_statefulset self) w →
  ∃ statefulset cs,
    get_finds self w namespace statefulset
    ∧ name = statefulset_name self
    ∧ get_containers statefulset = Ok cs
    ∧ forallb (checkable (resource_updates self)) cs = true
    ∧ existsb (drifted (resource_updates self)) cs = true
    ∧ obj = set_containers statefulset
              (reconcile_container (resource_updates self) <$> cs).
Proof.
  intros Hin.
  destruct (patch_statefulset_get_cases self w)
    as [(ns & statefulset & cs & Hfinds & Hcs)|Hno];
    [|by apply Hno in Hin].
  revert Hin. unfold new_calls.
  rewrite (patch_statefulset_run _ _ _ _ _ Hfinds Hcs). simpl.
  destruct (forallb _ cs) eqn:Hchk; simpl;
    [|rewrite drop_app_length; by intros ?%list_elem_of_singleton].
  destruct (existsb _ cs) eqn:Hdrift; simpl;
    [|rewrite drop_app_length; by intros ?%list_elem_of_singleton].
  intros Hin. assert (PATCH namespace name obj ∈
    [GET ns (statefulset_name self);
     PATCH ns (statefulset_name self)
       (set_containers statefulset
          (reconcile_container (resource_updates self) <$> cs))]) as Hin'.
  { destruct (api_fault w VPatch); simpl in Hin;
      by rewrite <-(assoc_L (++)), drop_app_length in Hin. }
  apply elem_of_cons in Hin' as [|Hin']; [done|].
  apply list_elem_of_singleton in Hin'. injection Hin' as -> -> ->.
  by exists statefulset, cs.
Qed.

(** ** Idempotence *)

(** C1, at a failing input.  The desired resources name only the memory of
    container [charm].  The first reconcile patches the container to
    limits = requests = [{"memory": "1Gi"}]; with no change in between, the
    drift check of the second reconcile still answers [False] on the
    container just written (the absent cpu is compared as the string
    ["None"]), and a second PATCH is sent: two PATCH requests in total. *)
Theorem reconcile_twice_patches_twice :
  let self := a_patcher desired_memory_only in
  let w0 := a_world (a_statefulset live_memory_only) in
  let run1 := _patch_statefulset self w0 in
  let run2 := _patch_statefulset self (snd run1) in
  fst run1 = Ok tt
  ∧ fst run2 = Ok tt
  ∧ cluster (snd run2) = cluster (snd run1)
  ∧ _is_patched
      (a_container "charm" (Some (quantities [("memory", PyStr "1Gi")])))
      {[ "memory" := PyStr "1Gi" ]} = Ok false
  ∧ patch_count (new_calls (_patch_statefulset self) (snd run1)) = 1
  ∧ patch_count (api_calls (snd run2)) = 2.
Proof. vm_compute. repeat split; reflexivity. Qed.

(** ** One PATCH when dirty, none otherwise *)

Lemma in_sync_no_drift ru cs :
  forallb (in_sync ru) cs = true →
  forallb (checkable ru) cs = true ∧ existsb (drifted ru) cs = false.
Proof.
  induction cs as [|c cs IH]; simpl; [done|].
  intros [Hc Hcs]%andb_true_iff. destruct (IH Hcs) as [-> ->].
  rewrite andb_true_r, orb_false_r. revert Hc.
  unfold in_sync, checkable, drifted, _is_patched.
  destruct (ru !! container_name c); [|done].
  destruct (container_resources c); [|done].
  by destruct (_ && _).
Qed.

(** C3, as stated, fails: a managed container that fails the drift check
    does not always lead to a PATCH.  With both containers managed, a live
    [app] that has drifted and a live [charm] without a resources object,
    the drift check of [charm] raises after [app] was marked, and the
    reconcile ends without any PATCH. *)
Lemma drift_without_patch :
  ¬ (∀ self w namespace statefulset cs,
       get_finds self w namespace statefulset →
       get_containers statefulset = Ok cs →
       (∃ c resources,
          c ∈ cs
          ∧ resource_updates self !! container_name c = Some resources
          ∧ _is_patched c resources = Ok false) →
       patch_count (new_calls (_patch_statefulset self) w) = 1).
Proof.
  intros H.
  specialize (H (a_patcher desired_both)
                (a_world (a_statefulset live_no_resources)) "my-model"
                (a_statefulset live_no_resources) live_no_resources
                ltac:(repeat split; reflexivity) eq_refl).
  assert (patch_count
            (new_calls (_patch_statefulset (a_patcher desired_both))
               (a_world (a_statefulset live_no_resources))) = 1) as Hone.
  { apply H.
    exists (a_container "app" (Some (quantities [("memory", PyStr "1Gi")]))),
      ({[ "memory" := PyStr "2Gi"; "cpu" := PyInt 2 ]} : dict).
    split; [apply list_elem_of_here|]. split; reflexivity. }
  vm_compute in Hone. discriminate Hone.
Qed.

(** C3, amended.  Let the GET of a reconcile find [statefulset] with
    containers [cs].  If every managed container has a resources object to
    compare and
    at least one managed container fails the drift check, the reconcile
    sends, after the GET, exactly one PATCH, and its payload is
    [statefulset] with the containers as the loop left them.  If every
    managed container passes the drift check, the GET is the only
    request. *)
Theorem reconcile_patches_iff_drift self w namespace statefulset cs :
  get_finds self w namespace statefulset →
  get_containers statefulset = Ok cs →
  (forallb (checkable (resource_updates self)) cs = true →
   existsb (drifted (resource_updates self)) cs = true →
   ∃ cs',
     patch_containers (resource_updates self) cs false = Ok (cs', true)
     ∧ new_calls (_patch_statefulset self) w
       = [GET namespace (statefulset_name self);
          PATCH namespace (statefulset_name self)
            (set_containers statefulset cs')])
  ∧ (forallb (in_sync (resource_updates self)) cs = true →
     new_calls (_patch_statefulset self) w
     = [GET namespace (statefulset_name self)]).
Proof.
  intros Hfinds Hcs. unfold new_calls.
  rewrite (patch_statefulset_run _ _ _ _ _ Hfinds Hcs). simpl. split.
  - intros Hchk Hdrift. eexists. split.
    + rewrite patch_containers_checkable by done. by rewrite Hdrift.
    + rewrite Hchk, Hdrift.
      destruct (api_fault w VPatch); simpl;
        by rewrite <-(assoc_L (++)), drop_app_length.
  - intros [-> ->]%in_sync_no_drift. simpl. by rewrite drop_app_length.
Qed.

(** At the two-container scenario: [charm] has drifted, one PATCH. *)
Lemma reconcile_patches_iff_drift_witness :
  ∃ cs',
    patch_containers desired_both live_both false = Ok (cs', true)
    ∧ new_calls (_patch_statefulset (a_patcher desired_both))
        (a_world (a_statefulset live_both))
      = [GET "my-model" "my-app";
         PATCH "my-model" "my-app" (a_statefulset cs')].
Proof.
  apply (proj1 (reconcile_patches_iff_drift (a_patcher desired_both)
                  (a_world (a_statefulset live_both)) "my-model"
                  (a_statefulset live_both) live_both
                  ltac:(repeat split; reflexivity) eq_refl));
    reflexivity.
Defined.

(** ** Partial targeting *)

(** C4.  In the object submitted by any PATCH of a reconcile, the
    containers are those of the live object, position by position, with
    name and image kept; a container whose name is not a key of the desired
    mapping is submitted unchanged, and so is a container that is a key and
    passes the drift check. *)
Theorem partial_targeting self w namespace name obj :
  PATCH namespace name obj ∈ new_calls (_patch_statefulset self) w →
  ∃ statefulset cs cs',
    cluster w !! (namespace, name) = Some statefulset
    ∧ get_containers statefulset = Ok cs
    ∧ get_containers obj = Ok cs'
    ∧ length cs' = length cs
    ∧ ∀ i c, cs !! i = Some c →
        ∃ c', cs' !! i = Some c'
          ∧ container_name c' = container_name c
          ∧ container_image c' = container_image c
          ∧ (resource_updates self !! container_name c = None → c' = c)
          ∧ (∀ resources,
               resource_updates self !! container_name c = Some resources →
               _is_patched c resources = Ok true → c' = c).
Proof.
  intros (statefulset & cs & Hfinds & -> & Hcs & _ & _ & ->)%patch_submitted.
  apply get_finds_inv in Hfinds as (_ & _ & _ & Hobj).
  exists statefulset, cs, (reconcile_container (resource_updates self) <$> cs).
  split; [done|]. split; [done|].
  split; [by apply get_set_containers with cs|].
  split; [by rewrite length_fmap|].
  intros i c Hi. exists (reconcile_container (resource_updates self) c).
  split; [by rewrite list_lookup_fmap, Hi|].
  unfold reconcile_container.
  destruct (resource_updates self !! container_name c) as [r|]; [|done].
  destruct (_is_patched c r) as [[]|] eqn:Hpatched; simpl;
    repeat split; try done; intros ? [= <-]; congruence.
Qed.

(** At the two-container scenario: [app] is submitted as it was. *)
Lemma partial_targeting_witness :
  ∃ statefulset cs cs',
    cluster (a_world (a_statefulset live_both)) !! ("my-model", "my-app")
    = Some statefulset
    ∧ get_containers statefulset = Ok cs
    ∧ get_containers
        (a_statefulset
           (reconcile_container desired_both <$> live_both)) = Ok cs'
    ∧ length cs' = length cs
    ∧ ∀ i c, cs !! i = Some c →
        ∃ c', cs' !! i = Some c'
          ∧ container_name c' = container_name c
          ∧ container_image c' = container_image c
          ∧ (desired_both !! container_name c = None → c' = c)
          ∧ (∀ resources,
               desired_both !! container_name c = Some resources →
               _is_patched c resources = Ok true → c' = c).
Proof.
  apply (partial_targeting (a_patcher desired_both)
           (a_world (a_statefulset live_both)) "my-model" "my-app"
           (a_statefulset (reconcile_container desired_both <$> live_both))).
  vm_compute. apply list_elem_of_In. right. left. reflexivity.
Defined.

(** ** Drift detection, key by key *)

Lemma is_patched_true_iff c r (resources : dict) :
  container_resources c = Some r →
  _is_patched c resources = Ok true ↔
    dict_get (or_empty (rr_limits r)) "memory" = dict_get resources "memory"
    ∧ dict_get (or_empty (rr_requests r)) "memory" = dict_get resources "memory"
    ∧ dict_get (or_empty (rr_limits r)) "cpu"
      = PyStr (py_str (dict_get resources "cpu"))
    ∧ dict_get (or_empty (rr_requests r)) "cpu"
      = PyStr (py_str (dict_get resources "cpu")).
Proof.
  intros Hr. unfold _is_patched, is_memory_patched, is_cpu_patched.
  rewrite Hr. split.
  - intros [= H]. rewrite !andb_true_iff, !py_eq_true in H. tauto.
  - intros (H1 & H2 & H3 & H4). by rewrite H1, H2, H3, H4, !py_eq_refl.
Qed.

Lemma agree_except_insert key v (m : dict) :
  agree_except key m (<[key := v]> m).
Proof. intros k Hk. by rewrite lookup_insert_ne. Qed.

(** C2, as stated, fails: the verdict of the drift check depends on the
    live value of a key that the desired spec does not contain.  With only
    cpu desired, two containers that differ only in their live memory get
    different verdicts. *)
Lemma unspecified_key_is_checked :
  ¬ (∀ (key : string) (resources : dict) (c1 c2 : Container) r1 r2,
       key = "memory" ∨ key = "cpu" →
       resources !! key = None →
       container_resources c1 = Some r1 →
       container_resources c2 = Some r2 →
       agree_except key (or_empty (rr_limits r1)) (or_empty (rr_limits r2)) →
       agree_except key (or_empty (rr_requests r1))
         (or_empty (rr_requests r2)) →
       _is_patched c1 resources = _is_patched c2 resources).
Proof.
  intros H.
  specialize (H "memory" {[ "cpu" := PyStr "2" ]}
    (a_container "app" (Some (quantities [("cpu", PyStr "2")])))
    (a_container "app"
       (Some (quantities [("memory", PyStr "1Gi"); ("cpu", PyStr "2")])))
    _ _ (or_introl eq_refl) eq_refl eq_refl eq_refl).
  pose proof (agree_except_insert "memory" (PyStr "1Gi")
                (list_to_map [("cpu", PyStr "2")])) as Hagree.
  specialize (H Hagree Hagree). vm_compute in H. discriminate H.
Qed.

(** C2, amended.  A memory key absent from the desired spec is still
    checked, as absence.  For a container with a resources object and a
    desired spec that gives a cpu and no memory: the container passes the
    drift check exactly when neither the live limits nor the live requests
    hold a memory value and both hold the string form of the desired cpu;
    if the live limits or requests hold a memory value the drift check
    answers [False]; and then a reconcile whose GET finds the object, in
    which the container is managed with that spec and every managed
    container has a resources object, sends exactly one PATCH. *)
Theorem absent_memory_compared_as_none c r (resources : dict) v :
  container_resources c = Some r →
  resources !! "memory" = None →
  resources !! "cpu" = Some v →
  (_is_patched c resources = Ok true ↔
     dict_get (or_empty (rr_limits r)) "memory" = PyNone
     ∧ dict_get (or_empty (rr_requests r)) "memory" = PyNone
     ∧ dict_get (or_empty (rr_limits r)) "cpu" = PyStr (py_str v)
     ∧ dict_get (or_empty (rr_requests r)) "cpu" = PyStr (py_str v))
  ∧ (dict_get (or_empty (rr_limits r)) "memory" ≠ PyNone
     ∨ dict_get (or_empty (rr_requests r)) "memory" ≠ PyNone →
     _is_patched c resources = Ok false
     ∧ ∀ self w namespace statefulset cs,
         get_finds self w namespace statefulset →
         get_containers statefulset = Ok cs →
         forallb (checkable (resource_updates self)) cs = true →
         c ∈ cs →
         resource_updates self !! container_name c = Some resources →
         patch_count (new_calls (_patch_statefulset self) w) = 1).
Proof.
  intros Hr Hmem Hcpu.
  assert (_is_patched c resources = Ok true ↔
     dict_get (or_empty (rr_limits r)) "memory" = PyNone
     ∧ dict_get (or_empty (rr_requests r)) "memory" = PyNone
     ∧ dict_get (or_empty (rr_limits r)) "cpu" = PyStr (py_str v)
     ∧ dict_get (or_empty (rr_requests r)) "cpu" = PyStr (py_str v))
    as Hiff.
  { rewrite (is_patched_true_iff c r resources Hr).
    unfold dict_get at 2 4 6 8. by rewrite Hmem, Hcpu. }
  split; [done|]. intros Hlive.
  assert (_is_patched c resources = Ok false) as Hfalse.
  { assert (_is_patched c resources ≠ Ok true) as Hne.
    { intros Hp. apply Hiff in Hp as (Hl & Hq & _). by destruct Hlive. }
    clear Hiff. unfold _is_patched in *. rewrite Hr in *.
    destruct (_ && _); [by destruct Hne|done]. }
  split; [done|].
  intros self w namespace statefulset cs Hfinds Hcs Hchk Hin Hru.
  assert (existsb (drifted (resource_updates self)) cs = true) as Hdrift.
  { apply existsb_exists. exists c. split; [by apply list_elem_of_In|].
    unfold drifted. by rewrite Hru, Hfalse. }
  unfold new_calls. rewrite (patch_statefulset_run _ _ _ _ _ Hfinds Hcs).
  simpl. rewrite Hchk, Hdrift.
  destruct (api_fault w VPatch); simpl;
    by rewrite <-(assoc_L (++)), drop_app_length.
Qed.

(** With only cpu desired, a container without live memory and with the
    matching cpu string passes. *)
Lemma absent_memory_compared_as_none_witness :
  _is_patched (a_container "app" (Some (quantities [("cpu", PyStr "2")])))
    {[ "cpu" := PyInt 2 ]} = Ok true.
Proof.
  apply (proj1 (absent_memory_compared_as_none
                  (a_container "app" (Some (quantities [("cpu", PyStr "2")])))
                  (quantities [("cpu", PyStr "2")])
                  ({[ "cpu" := PyInt 2 ]} : dict) (PyInt 2)
                  ltac:(reflexivity) ltac:(reflexivity) ltac:(reflexivity)));
    repeat split; reflexivity.
Defined.

(** ** CPU coercion *)



(** ** What a write leaves in a container *)

(** The written state is a function of the desired spec alone: one map,
    used for limits and for requests, holding the desired memory as given
    and the desired cpu as a string, and nothing else. *)
Lemma build_resource_requirements_spec (resources : dict) :
  ∃ written : dict,
    _build_resource_requirements resources
    = {| rr_claims := None; rr_limits := Some written;
         rr_requests := Some written |}
    ∧ written !! "memory" = resources !! "memory"
    ∧ written !! "cpu" = (λ v, PyStr (py_str v)) <$> resources !! "cpu"
    ∧ ∀ k, k ≠ "memory" → k ≠ "cpu" → written !! k = None.
Proof.
  unfold _build_resource_requirements.
  destruct (resources !! "memory") as [m|], (resources !! "cpu") as [v|];
    simpl; eexists; (split; [reflexivity|]); repeat split;
    try (intros k Hm Hc);
    rewrite ?lookup_insert_eq, ?lookup_insert_ne by done;
    by rewrite ?lookup_insert_eq, ?lookup_empty.
Qed.

(** C6.  In the object submitted by any PATCH of a reconcile, every
    container the loop wrote (a managed container whose drift check
    answered [False]) carries a fresh resources object in which limits and
    requests are the same map; that map has a key only if the key is
    [memory] or [cpu] and the desired spec has it, so nothing of the
    previous limits, requests or claims survives.  A container that was not
    written is submitted as it was. *)
Theorem write_invariant self w namespace name obj :
  PATCH namespace name obj ∈ new_calls (_patch_statefulset self) w →
  ∃ statefulset cs cs',
    cluster w !! (namespace, name) = Some statefulset
    ∧ get_containers statefulset = Ok cs
    ∧ get_containers obj = Ok cs'
    ∧ (∀ i c resources,
         cs !! i = Some c →
         resource_updates self !! container_name c = Some resources →
         _is_patched c resources = Ok false →
         ∃ written : dict,
           cs' !! i
           = Some {| container_name := container_name c;
                     container_image := container_image c;
                     container_resources :=
                       Some {| rr_claims := None;
                               rr_limits := Some written;
                               rr_requests := Some written |} |}
           ∧ ∀ k, is_Some (written !! k) ↔
                  (k = "memory" ∨ k = "cpu") ∧ is_Some (resources !! k))
    ∧ (∀ i c, cs !! i = Some c →
         drifted (resource_updates self) c = false → cs' !! i = Some c).
Proof.
  intros (statefulset & cs & Hfinds & -> & Hcs & _ & _ & ->)%patch_submitted.
  apply get_finds_inv in Hfinds as (_ & _ & _ & Hobj).
  exists statefulset, cs, (reconcile_container (resource_updates self) <$> cs).
  split; [done|]. split; [done|].
  split; [by apply get_set_containers with cs|]. split.
  - intros i c resources Hi Hru Hdrift.
    destruct (build_resource_requirements_spec resources)
      as (written & Hbuild & Hmem & Hcpu & Hother).
    exists written. split.
    + rewrite list_lookup_fmap, Hi. simpl. unfold reconcile_container.
      rewrite Hru, Hdrift. unfold set_resources. by rewrite Hbuild.
    + intros k. destruct (decide (k = "memory")) as [->|Hkm].
      { rewrite Hmem. split; [intros ?; split; [by left|done]|by intros [_ ?]]. }
      destruct (decide (k = "cpu")) as [->|Hkc].
      { rewrite Hcpu, fmap_is_Some.
        split; [intros ?; split; [by right|done]|by intros [_ ?]]. }
      rewrite Hother by done.
      split; [by intros []|by intros [[?|?] _]].
  - intros i c Hi Hdrift. rewrite list_lookup_fmap, Hi. simpl. f_equal.
    revert Hdrift. unfold drifted, reconcile_container.
    destruct (resource_updates self !! container_name c) as [r|]; [|done].
    by destruct (_is_patched c r) as [[]|].
Qed.

(** At the two-container scenario: [charm] is written with
    limits = requests = [{"memory": "1Gi", "cpu": "1"}]. *)
Lemma write_invariant_witness :
  ∃ statefulset cs cs',
    cluster (a_world (a_statefulset live_both)) !! ("my-model", "my-app")
    = Some statefulset
    ∧ get_containers statefulset = Ok cs
    ∧ get_containers
        (a_statefulset (reconcile_container desired_both <$> live_both))
      = Ok cs'
    ∧ (∀ i c resources,
         cs !! i = Some c →
         desired_both !! container_name c = Some resources →
         _is_patched c resources = Ok false →
         ∃ written : dict,
           cs' !! i
           = Some {| container_name := container_name c;
                     container_image := container_image c;
                     container_resources :=
                       Some {| rr_claims := None;
                               rr_limits := Some written;
                               rr_requests := Some written |} |}
           ∧ ∀ k, is_Some (written !! k) ↔
                  (k = "memory" ∨ k = "cpu") ∧ is_Some (resources !! k))
    ∧ (∀ i c, cs !! i = Some c →
         drifted desired_both c = false → cs' !! i = Some c).
Proof.
  apply (write_invariant (a_patcher desired_both)
           (a_world (a_statefulset live_both)) "my-model" "my-app"
           (a_statefulset (reconcile_container desired_both <$> live_both))).
  vm_compute. apply list_elem_of_In. right. left. reflexivity.
Defined.

(** ** Teardown *)

(** C7.  With a client configured and the namespace readable, teardown
    always sends exactly one DELETE, whatever the desired resources are.
    If the server answers it with 404 the handler returns normally; if it
    answers with any other error, that error is raised to the caller. *)
Theorem teardown_error_handling self w namespace :
  kube_config w = true →
  fst (_namespace w) = Ok namespace →
  let delete := client_delete namespace (statefulset_name self) w in
  (fst delete = Raise (ApiError 404) →
   fst (_remove_statefulset self w) = Ok tt)
  ∧ (∀ code, code ≠ 404%Z → fst delete = Raise (ApiError code) →
     fst (_remove_statefulset self w) = Raise (ApiError code))
  ∧ (fst delete = Ok tt → fst (_remove_statefulset self w) = Ok tt)
  ∧ new_calls (_remove_statefulset self) w
    = [DELETE namespace (statefulset_name self)]
  ∧ ∀ ru,
      _remove_statefulset
        {| statefulset_name := statefulset_name self;
           resource_updates := ru |} w
      = _remove_statefulset self w.
Proof.
  intros Hcfg Hns. unfold _namespace in Hns. simpl in Hns.
  unfold new_calls, _remove_statefulset, try_except, mbind, M_bind, Client,
    _namespace, client_delete, respond, logger, raise, mret, M_ret. simpl.
  rewrite Hcfg. simpl. rewrite Hns. simpl.
  destruct (api_fault w VDelete) as [code|]; simpl.
  - repeat split; try done.
    + by intros [= ->].
    + intros code' Hne [= ->]. by apply Z.eqb_neq in Hne as ->.
    + destruct (code =? 404)%Z; simpl; by rewrite drop_app_length.
  - destruct (cluster w !! (namespace, statefulset_name self)); simpl;
      repeat split; try done; try (by rewrite drop_app_length).
    by intros code Hne [= <-].
Qed.

(** Deleting an object that is already gone returns normally. *)
Lemma teardown_error_handling_witness :
  fst (_remove_statefulset (a_patcher desired_both)
         (mkWorld true (Some "my-model") ∅ (λ _, None) [] [])) = Ok tt.
Proof.
  apply (proj1 (teardown_error_handling (a_patcher desired_both)
                  (mkWorld true (Some "my-model") ∅ (λ _, None) [] [])
                  "my-model" eq_refl eq_refl)).
  reflexivity.
Defined.

(** ** A failing GET *)

(** C8.  When the initial GET of a reconcile fails with [e] (no client
    configuration, not-found, or any other status the server answers
    with), the reconcile logs one error record for [e], raises [e] to its
    caller, sends no PATCH and leaves the cluster as it was. *)
Theorem reconcile_get_failure_propagates self w e :
  get_raises self w e →
  fst (_patch_statefulset self w) = Raise e
  ∧ new_logs (_patch_statefulset self) w = [ERROR_failed_to_patch e]
  ∧ patch_count (new_calls (_patch_statefulset self) w) = 0
  ∧ cluster (snd (_patch_statefulset self w)) = cluster w.
Proof.
  unfold new_logs, new_calls, patch_count.
  intros [[Hcfg ->]|(Hcfg & namespace & Hns & Hget)].
  - unfold _patch_statefulset, try_except, mbind, M_bind, Client, logger,
      raise. simpl. rewrite Hcfg. simpl.
    by rewrite drop_app_length, drop_all.
  - unfold _namespace in Hns. simpl in Hns. revert Hget.
    unfold _patch_statefulset, try_except, mbind, M_bind, Client, _namespace,
      client_get, respond, lift, logger, raise. simpl.
    rewrite Hcfg. simpl. rewrite Hns. simpl.
    destruct (api_fault w VGet) as [code|]; simpl.
    + intros [= <-]. simpl. by rewrite !drop_app_length.
    + destruct (cluster w !! (namespace, statefulset_name self)); simpl;
        [done|].
      intros [= <-]. simpl. by rewrite !drop_app_length.
Qed.

(** Reconciling against a cluster without the object: 404 is raised. *)
Lemma reconcile_get_failure_propagates_witness :
  fst (_patch_statefulset (a_patcher desired_both)
         (mkWorld true (Some "my-model") ∅ (λ _, None) [] []))
  = Raise (ApiError 404).
Proof.
  apply (reconcile_get_failure_propagates (a_patcher desired_both)
           (mkWorld true (Some "my-model") ∅ (λ _, None) [] [])
           (ApiError 404)).
  right. split; [reflexivity|]. exists "my-model". split; reflexivity.
Defined.

(** ** A desired spec with neither key *)

Lemma build_resource_requirements_empty (resources : dict) :
  resources !! "memory" = None →
  resources !! "cpu" = None →
  _build_resource_requirements resources
  = {| rr_claims := None; rr_limits := Some ∅; rr_requests := Some ∅ |}.
Proof.
  intros Hmem Hcpu. unfold _build_resource_requirements.
  by rewrite Hmem, Hcpu.
Qed.

(** C9.  In the object submitted by any PATCH of a reconcile, a container
    that the loop wrote and whose desired spec has neither [memory] nor
    [cpu] carries limits = [{}] and requests = [{}]. *)
Theorem empty_spec_writes_empty_state self w namespace name obj :
  PATCH namespace name obj ∈ new_calls (_patch_statefulset self) w →
  ∃ statefulset cs cs',
    cluster w !! (namespace, name) = Some statefulset
    ∧ get_containers statefulset = Ok cs
    ∧ get_containers obj = Ok cs'
    ∧ ∀ i c resources,
        cs !! i = Some c →
        resource_updates self !! container_name c = Some resources →
        resources !! "memory" = None →
        resources !! "cpu" = None →
        _is_patched c resources = Ok false →
        cs' !! i
        = Some {| container_name := container_name c;
                  container_image := container_image c;
                  container_resources :=
                    Some {| rr_claims := None; rr_limits := Some ∅;
                            rr_requests := Some ∅ |} |}.
Proof.
  intros (statefulset & cs & Hfinds & -> & Hcs & _ & _ & ->)%patch_submitted.
  apply get_finds_inv in Hfinds as (_ & _ & _ & Hobj).
  exists statefulset, cs, (reconcile_container (resource_updates self) <$> cs).
  split; [done|]. split; [done|].
  split; [by apply get_set_containers with cs|].
  intros i c resources Hi Hru Hmem Hcpu Hdrift.
  rewrite list_lookup_fmap, Hi. simpl. unfold reconcile_container.
  rewrite Hru, Hdrift. unfold set_resources.
  by rewrite build_resource_requirements_empty.
Qed.

(** With [{"charm": {}}] desired, the memory-only [charm] is rewritten to
    an empty resource state. *)
Lemma empty_spec_writes_empty_state_witness :
  ∃ statefulset cs cs',
    cluster (a_world (a_statefulset live_memory_only))
      !! ("my-model", "my-app") = Some statefulset
    ∧ get_containers statefulset = Ok cs
    ∧ get_containers
        (a_statefulset
           [ a_container "charm"
               (Some {| rr_claims := None; rr_limits := Some ∅;
                        rr_requests := Some ∅ |}) ]) = Ok cs'
    ∧ ∀ i c resources,
        cs !! i = Some c →
        desired_empty !! container_name c = Some resources →
        resources !! "memory" = None →
        resources !! "cpu" = None →
        _is_patched c resources = Ok false →
        cs' !! i
        = Some {| container_name := container_name c;
                  container_image := container_image c;
                  container_resources :=
                    Some {| rr_claims := None; rr_limits := Some ∅;
                            rr_requests := Some ∅ |} |}.
Proof.
  apply (empty_spec_writes_empty_state (a_patcher desired_empty)
           (a_world (a_statefulset live_memory_only)) "my-model" "my-app").
  vm_compute. apply list_elem_of_In. right. left. reflexivity.
Defined.

(** ** A container without a resources object *)

Lemma uncheckable_elem ru cs c :
  c ∈ cs →
  is_Some (ru !! container_name c) →
  container_resources c = None →
  forallb (checkable ru) cs = false.
Proof.
  intros Hin [r Hr] Hnone. apply not_true_is_false.
  rewrite forallb_forall. intros Hall.
  apply list_elem_of_In, Hall in Hin. unfold checkable in Hin.
  by rewrite Hr, Hnone in Hin.
Qed.

(** C10.  If the live object has a managed container whose [resources]
    attribute is [None], the reconcile raises [AttributeError] after its
    GET: nothing is patched or logged, whatever the other containers
    are.  A resources object whose limits and requests are [None] is
    compared as if both were empty maps, and the check returns a
    verdict. *)
Theorem missing_resources_object_raises self w namespace statefulset cs c :
  get_finds self w namespace statefulset →
  get_containers statefulset = Ok cs →
  c ∈ cs →
  is_Some (resource_updates self !! container_name c) →
  container_resources c = None →
  _patch_statefulset self w
  = (Raise AttributeError,
     record_call (GET namespace (statefulset_name self)) w)
  ∧ ∀ name image claims (resources : dict),
      ∃ verdict,
        _is_patched (mkContainer name image
                       (Some (mkResourceRequirements claims None None)))
          resources = Ok verdict
        ∧ _is_patched (mkContainer name image
                         (Some (mkResourceRequirements claims (Some ∅)
                                  (Some ∅))))
            resources = Ok verdict.
Proof.
  intros Hfinds Hcs Hin Hru Hnone. split.
  - rewrite (patch_statefulset_run _ _ _ _ _ Hfinds Hcs). simpl.
    by rewrite (uncheckable_elem _ _ _ Hin Hru Hnone).
  - intros name image claims resources. by eexists.
Qed.

(** [app] has drifted and [charm] has no resources object: the
    reconcile raises and sends only its GET. *)
Lemma missing_resources_object_raises_witness :
  fst (_patch_statefulset (a_patcher desired_both)
         (a_world (a_statefulset live_no_resources)))
  = Raise AttributeError
  ∧ api_calls (snd (_patch_statefulset (a_patcher desired_both)
                      (a_world (a_statefulset live_no_resources))))
    = [GET "my-model" "my-app"].
Proof.
  pose proof (proj1 (missing_resources_object_raises
                (a_patcher desired_both)
                (a_world (a_statefulset live_no_resources)) "my-model"
                (a_statefulset live_no_resources) live_no_resources
                (a_container "charm" None)
                ltac:(repeat split; reflexivity) eq_refl
                ltac:(apply list_elem_of_In; right; left; reflexivity)
                ltac:(eexists; reflexivity) eq_refl)) as H.
  rewrite H. split; reflexivity.
Defined.

(** ** When a second reconcile is a no-op *)

Lemma get_finds_intro self w namespace statefulset :
  kube_config w = true →
  namespace_of (namespace_file w) = Ok namespace →
  api_fault w VGet = None →
  cluster w !! (namespace, statefulset_name self) = Some statefulset →
  get_finds self w namespace statefulset.
Proof.
  intros Hcfg Hns Hfault Hobj.
  unfold get_finds, _namespace, client_get, respond. simpl.
  by rewrite Hcfg, Hns, Hfault, Hobj.
Qed.

Lemma new_calls_in_sync self w namespace statefulset cs :
  get_finds self w namespace statefulset →
  get_containers statefulset = Ok cs →
  forallb (in_sync (resource_updates self)) cs = true →
  new_calls (_patch_statefulset self) w
  = [GET namespace (statefulset_name self)].
Proof.
  intros Hfinds Hcs [Hchk Hdrift]%in_sync_no_drift. unfold new_calls.
  rewrite (patch_statefulset_run _ _ _ _ _ Hfinds Hcs). simpl.
  rewrite Hchk, Hdrift. simpl. by rewrite drop_app_length.
Qed.

(** A container the loop has dealt with passes the drift check afterwards,
    provided its desired spec names a cpu. *)
Lemma reconcile_container_in_sync ru c :
  (∀ r, ru !! container_name c = Some r → is_Some (r !! "cpu")) →
  checkable ru c = true →
  in_sync ru (reconcile_container ru c) = true.
Proof.
  intros Hcpu. unfold checkable, in_sync, reconcile_container.
  destruct (ru !! container_name c) as [r|] eqn:Hr; [|by rewrite Hr].
  destruct (container_resources c) as [rr|] eqn:Hrr; [intros _|done].
  destruct (_is_patched c r) as [[]|e] eqn:Hp.
  - by rewrite Hr, Hp.
  - simpl. rewrite Hr. unfold _is_patched. simpl.
    by rewrite build_is_memory_patched, build_is_cpu_patched by eauto.
  - unfold _is_patched in Hp. by rewrite Hrr in Hp.
Qed.

(** X11.  Idempotence where it holds: when the desired spec of every managed
    container names a cpu and the PATCH of the first reconcile (if any)
    succeeds, a second reconcile sends its GET and nothing else. *)
Lemma reconcile_idempotent_with_cpu self w namespace statefulset cs :
  get_finds self w namespace statefulset →
  get_containers statefulset = Ok cs →
  forallb (checkable (resource_updates self)) cs = true →
  api_fault w VPatch = None →
  (∀ c r, c ∈ cs → resource_updates self !! container_name c = Some r →
          is_Some (r !! "cpu")) →
  new_calls (_patch_statefulset self) (snd (_patch_statefulset self w))
  = [GET namespace (statefulset_name self)].
Proof.
  intros Hfinds Hcs Hchk Hpatch Hcpu.
  assert (forallb (in_sync (resource_updates self))
            (reconcile_container (resource_updates self) <$> cs) = true)
    as Hsync.
  { apply forallb_forall. intros c' Hin.
    apply list_elem_of_In, list_elem_of_fmap in Hin as (c & -> & Hc).
    apply reconcile_container_in_sync; [by eauto|].
    rewrite forallb_forall in Hchk. by apply Hchk, list_elem_of_In. }
  rewrite (patch_statefulset_run _ _ _ _ _ Hfinds Hcs). simpl.
  apply get_finds_inv in Hfinds as (Hcfg & Hns & Hfault & Hobj).
  rewrite Hchk, Hpatch.
  destruct (existsb (drifted (resource_updates self)) cs) eqn:Hdrift; simpl.
  - eapply new_calls_in_sync; [| |exact Hsync].
    + apply get_finds_intro; simpl; try done. by rewrite lookup_insert_eq.
    + by apply get_set_containers with cs.
  - eapply new_calls_in_sync; [by apply get_finds_intro|exact Hcs|].
    apply forallb_forall. intros c Hin.
    assert (checkable (resource_updates self) c = true) as Hc
      by (rewrite forallb_forall in Hchk; by apply Hchk).
    assert (drifted (resource_updates self) c = false) as Hd.
    { apply not_true_is_false. intros Hd.
      assert (existsb (drifted (resource_updates self)) cs = true)
        by (apply existsb_exists; eauto).
      congruence. }
    revert Hc Hd. unfold checkable, drifted, in_sync, _is_patched.
    destruct (resource_updates self !! container_name c); [|done].
    destruct (container_resources c); [|done].
    by destruct (_ && _).
Qed.

(** ** Further runs on concrete objects *)

(** The scenario with both containers managed: [charm] is patched to
    memory ["1Gi"] and cpu ["1"], [app] is submitted as found, and a second
    reconcile sends no PATCH. *)
Example scenario_both :
  let self := a_patcher desired_both in
  let run1 := _patch_statefulset self (a_world (a_statefulset live_both)) in
  let run2 := _patch_statefulset self (snd run1) in
  fst run1 = Ok tt
  ∧ api_calls (snd run1)
    = [GET "my-model" "my-app";
       PATCH "my-model" "my-app"
         (a_statefulset
            [ a_container "charm"
                (Some (quantities [("cpu", PyStr "1");
                                   ("memory", PyStr "1Gi")]));
              a_container "app"
                (Some (quantities [("memory", PyStr "2Gi");
                                   ("cpu", PyStr "2")])) ])]
  ∧ log (snd run1) = [INFO_patched "my-app"]
  ∧ patch_count (api_calls (snd run2)) = 1
  ∧ log (snd run2) = [INFO_patched "my-app"; DEBUG_no_updates "my-app"].
Proof. vm_compute. repeat split; reflexivity. Qed.

(** Desired [{"charm": {"cpu": 4}}] against a [charm] whose limits and
    requests are null: drift is detected and cpu ["4"] is written to
    both. *)
Example scenario_null_maps :
  new_calls (_patch_statefulset (a_patcher {[ "charm" := {[ "cpu" := PyInt 4 ]} ]}))
    (a_world (a_statefulset live_null_maps))
  = [GET "my-model" "my-app";
     PATCH "my-model" "my-app"
       (a_statefulset
          [ a_container "charm" (Some (quantities [("cpu", PyStr "4")])) ])].
Proof. vm_compute. reflexivity. Qed.

(** A PATCH that the server refuses is logged and raised; a DELETE that
    the server refuses with a status other than 404 is raised. *)
Example scenario_refused :
  let w := with_fault VPatch 403
             (with_fault VDelete 403 (a_world (a_statefulset live_both))) in
  let run := _patch_statefulset (a_patcher desired_both) w in
  fst run = Raise (ApiError 403)
  ∧ log (snd run) = [ERROR_failed_to_patch (ApiError 403)]
  ∧ cluster (snd run) = cluster w
  ∧ fst (_remove_statefulset (a_patcher desired_both) w)
    = Raise (ApiError 403).
Proof. vm_compute. repeat split; reflexivity. Qed.

(** * Further properties of the handlers *)

(** ** Reconcile: requests, log and cluster *)

Ltac unfold_reconcile :=
  unfold _patch_statefulset, try_except, mbind, M_bind, Client, _namespace,
    client_get, client_patch, respond, lift, logger, raise; simpl.

(** X1.  Whatever the world, the requests of one reconcile are nothing,
    or one GET, or one GET followed by one PATCH, all for the StatefulSet
    named after the application: never a DELETE, never a second PATCH. *)
Theorem reconcile_requests_shape self w :
  let calls := new_calls (_patch_statefulset self) w in
  calls = []
  ∨ (∃ namespace, calls = [GET namespace (statefulset_name self)])
  ∨ (∃ namespace obj,
       calls = [GET namespace (statefulset_name self);
                PATCH namespace (statefulset_name self) obj]).
Proof.
  simpl. unfold new_calls. unfold_reconcile.
  destruct (kube_config w); simpl; [|left; by rewrite drop_all].
  case_namespace w ns Hfile; simpl; [|left; by rewrite drop_all..].
  destruct (api_fault w VGet); simpl;
    [right; left; exists ns; by rewrite drop_app_length|].
  destruct (cluster w !! (ns, statefulset_name self))
    as [statefulset|] eqn:Hobj; simpl;
    [|right; left; exists ns; by rewrite drop_app_length].
  destruct (get_containers statefulset) as [cs|e]; simpl;
    [|right; left; exists ns; destruct e; simpl;
      by rewrite drop_app_length].
  destruct (patch_containers (resource_updates self) cs false)
    as [[cs' []]|e]; simpl.
  - right. right. eexists ns, _. rewrite Hfile. simpl.
    destruct (api_fault w VPatch); simpl;
      [by rewrite <-(assoc_L (++)), drop_app_length|].
    rewrite Hobj. simpl. by rewrite <-(assoc_L (++)), drop_app_length.
  - right. left. exists ns. by rewrite drop_app_length.
  - right. left. exists ns. destruct e; simpl;
      by rewrite drop_app_length.
Qed.

(** X2.  When the namespace file cannot be read, a reconcile raises the
    file error as it is: no request is sent and, unlike for a
    configuration or API error, nothing is logged. *)
Theorem reconcile_namespace_unreadable self w :
  kube_config w = true →
  namespace_file w = None →
  _patch_statefulset self w = (Raise OSError, w).
Proof. intros Hcfg Hfile. unfold_reconcile. rewrite Hcfg, Hfile. simpl. done. Qed.

Lemma reconcile_namespace_unreadable_witness :
  _patch_statefulset (a_patcher desired_both)
    (mkWorld true None ∅ (λ _, None) [] [])
  = (Raise OSError, mkWorld true None ∅ (λ _, None) [] []).
Proof.
  apply (reconcile_namespace_unreadable (a_patcher desired_both)
           (mkWorld true None ∅ (λ _, None) [] []) eq_refl eq_refl).
Defined.

(** X3.  When the server refuses the PATCH of a reconcile with status
    [code], the reconcile logs one error record, raises that API error and
    leaves every object of the cluster as it was. *)
Theorem reconcile_patch_refused self w namespace statefulset cs code :
  get_finds self w namespace statefulset →
  get_containers statefulset = Ok cs →
  forallb (checkable (resource_updates self)) cs = true →
  existsb (drifted (resource_updates self)) cs = true →
  api_fault w VPatch = Some code →
  fst (_patch_statefulset self w) = Raise (ApiError code)
  ∧ new_logs (_patch_statefulset self) w
    = [ERROR_failed_to_patch (ApiError code)]
  ∧ patch_count (new_calls (_patch_statefulset self) w) = 1
  ∧ cluster (snd (_patch_statefulset self w)) = cluster w.
Proof.
  intros Hfinds Hcs Hchk Hdrift Hfault. unfold new_logs, new_calls.
  rewrite (patch_statefulset_run _ _ _ _ _ Hfinds Hcs). simpl.
  rewrite Hchk, Hdrift, Hfault. simpl.
  by rewrite !drop_app_length, <-(assoc_L (++)), drop_app_length.
Qed.

Lemma reconcile_patch_refused_witness :
  fst (_patch_statefulset (a_patcher desired_both)
         (with_fault VPatch 409 (a_world (a_statefulset live_both))))
  = Raise (ApiError 409).
Proof.
  apply (reconcile_patch_refused (a_patcher desired_both)
           (with_fault VPatch 409 (a_world (a_statefulset live_both)))
           "my-model" (a_statefulset live_both) live_both 409%Z);
    repeat split; reflexivity.
Defined.

Lemma patch_statefulset_ok_inv self w :
  fst (_patch_statefulset self w) = Ok tt →
  ∃ namespace statefulset cs,
    get_finds self w namespace statefulset
    ∧ get_containers statefulset = Ok cs.
Proof.
  destruct (kube_config w) eqn:Hcfg;
    [|unfold_reconcile; by rewrite Hcfg].
  case_namespace w ns Hfile;
    [|unfold_reconcile; rewrite Hcfg; simpl; by rewrite Hfile..].
  destruct (api_fault w VGet) as [code|] eqn:Hfault;
    [unfold_reconcile; rewrite Hcfg; simpl; rewrite Hfile; simpl;
     by rewrite Hfault|].
  destruct (cluster w !! (ns, statefulset_name self))
    as [statefulset|] eqn:Hobj;
    [|unfold_reconcile; rewrite Hcfg; simpl; rewrite Hfile; simpl;
      by rewrite Hfault, Hobj].
  destruct (get_containers statefulset) as [cs|e] eqn:Hcs.
  - intros _. exists ns, statefulset, cs.
    split; [by apply get_finds_intro|done].
  - unfold_reconcile. rewrite Hcfg. simpl. rewrite Hfile. simpl.
    rewrite Hfault, Hobj, Hcs. by destruct e.
Qed.

(** X4.  A reconcile that returns normally has done one of two things.
    Either it sent one PATCH, logged the success record, and the cluster
    now holds the submitted object in place of the live one; or it sent no
    PATCH, logged the no-update record, and the cluster is as before. *)
Theorem reconcile_success_outcomes self w :
  fst (_patch_statefulset self w) = Ok tt →
  (new_logs (_patch_statefulset self) w
   = [INFO_patched (statefulset_name self)]
   ∧ ∃ namespace obj,
       new_calls (_patch_statefulset self) w
       = [GET namespace (statefulset_name self);
          PATCH namespace (statefulset_name self) obj]
       ∧ cluster (snd (_patch_statefulset self w))
         = <[(namespace, statefulset_name self) := obj]> (cluster w))
  ∨ (new_logs (_patch_statefulset self) w
     = [DEBUG_no_updates (statefulset_name self)]
     ∧ patch_count (new_calls (_patch_statefulset self) w) = 0
     ∧ cluster (snd (_patch_statefulset self w)) = cluster w).
Proof.
  intros Hok.
  destruct (patch_statefulset_ok_inv self w Hok)
    as (ns & statefulset & cs & Hfinds & Hcs).
  revert Hok. unfold new_logs, new_calls.
  rewrite (patch_statefulset_run _ _ _ _ _ Hfinds Hcs). simpl.
  destruct (forallb _ cs); simpl; [|done].
  destruct (existsb _ cs); simpl.
  - destruct (api_fault w VPatch); simpl; [done|]. intros _. left.
    rewrite drop_app_length. split; [done|]. eexists ns, _.
    by rewrite <-(assoc_L (++)), drop_app_length.
  - intros _. right. by rewrite !drop_app_length.
Qed.

Lemma reconcile_success_outcomes_witness :
  (new_logs (_patch_statefulset (a_patcher desired_both))
     (a_world (a_statefulset live_both)) = [INFO_patched "my-app"]
   ∧ ∃ namespace obj,
       new_calls (_patch_statefulset (a_patcher desired_both))
         (a_world (a_statefulset live_both))
       = [GET namespace "my-app"; PATCH namespace "my-app" obj]
       ∧ cluster (snd (_patch_statefulset (a_patcher desired_both)
                         (a_world (a_statefulset live_both))))
         = <[(namespace, "my-app") := obj]>
             (cluster (a_world (a_statefulset live_both))))
  ∨ (new_logs (_patch_statefulset (a_patcher desired_both))
       (a_world (a_statefulset live_both)) = [DEBUG_no_updates "my-app"]
     ∧ patch_count
         (new_calls (_patch_statefulset (a_patcher desired_both))
            (a_world (a_statefulset live_both))) = 0
     ∧ cluster (snd (_patch_statefulset (a_patcher desired_both)
                       (a_world (a_statefulset live_both))))
       = cluster (a_world (a_statefulset live_both))).
Proof.
  apply (reconcile_success_outcomes (a_patcher desired_both)
           (a_world (a_statefulset live_both))).
  reflexivity.
Defined.

(** X5.  A reconcile neither creates nor deletes an object, and it leaves
    every object stored under another name untouched, whatever the world
    and however the run ends. *)
Theorem reconcile_cluster_frame self w :
  dom (cluster (snd (_patch_statefulset self w))) = dom (cluster w)
  ∧ ∀ namespace name,
      name ≠ statefulset_name self →
      cluster (snd (_patch_statefulset self w)) !! (namespace, name)
      = cluster w !! (namespace, name).
Proof.
  unfold_reconcile.
  destruct (kube_config w); simpl; [|done].
  case_namespace w nsp Hfile; simpl; [|done..].
  destruct (api_fault w VGet); simpl; [done|].
  destruct (cluster w !! (nsp, statefulset_name self))
    as [statefulset|] eqn:Hobj; simpl; [|done].
  destruct (get_containers statefulset) as [cs|e]; simpl;
    [|by destruct e].
  destruct (patch_containers (resource_updates self) cs false)
    as [[cs' []]|e]; simpl; [| done | by destruct e].
  rewrite Hfile. simpl.
  destruct (api_fault w VPatch); simpl; [done|].
  rewrite Hobj. simpl. split.
  - rewrite dom_insert_L.
    apply subseteq_union_1_L, singleton_subseteq_l, elem_of_dom. eauto.
  - intros ns name Hne. rewrite lookup_insert_ne; [done|]. congruence.
Qed.

(** ** The loop over the containers *)

Lemma patch_containers_agree ru1 ru2 cs b :
  (∀ c, c ∈ cs → ru1 !! container_name c = ru2 !! container_name c) →
  patch_containers ru1 cs b = patch_containers ru2 cs b.
Proof.
  revert b. induction cs as [|c cs IH]; intros b Hagree; simpl; [done|].
  rewrite <-(Hagree c) by apply list_elem_of_here.
  assert (∀ b', patch_containers ru1 cs b' = patch_containers ru2 cs b')
    as Hrest.
  { intros b'. apply IH. intros c' Hc'. apply Hagree.
    by apply list_elem_of_further. }
  by rewrite !Hrest.
Qed.

(** X6.  An entry of the desired mapping whose container name does not
    occur in the live object is ignored: the reconcile with that entry
    added runs exactly as the one without it (same result, same requests,
    same log, same cluster). *)
Theorem absent_container_ignored self w namespace statefulset cs name
    resources :
  get_finds self w namespace statefulset →
  get_containers statefulset = Ok cs →
  name ∉ container_name <$> cs →
  _patch_statefulset
    {| statefulset_name := statefulset_name self;
       resource_updates := <[name := resources]> (resource_updates self) |} w
  = _patch_statefulset self w.
Proof.
  intros Hfinds Hcs Hname.
  apply get_finds_inv in Hfinds as (Hcfg & Hns & Hfault & Hobj).
  unfold_reconcile. rewrite Hcfg. simpl. rewrite Hns. simpl.
  rewrite Hfault, Hobj, Hcs. simpl.
  rewrite (patch_containers_agree
             (<[name := resources]> (resource_updates self))
             (resource_updates self)); [done|].
  intros c Hc. apply lookup_insert_ne. intros ->. apply Hname.
  by apply list_elem_of_fmap_2.
Qed.

Lemma absent_container_ignored_witness :
  _patch_statefulset
    (a_patcher (<["sidecar" := {[ "cpu" := PyInt 2 ]}]> desired_both))
    (a_world (a_statefulset live_both))
  = _patch_statefulset (a_patcher desired_both)
      (a_world (a_statefulset live_both)).
Proof.
  apply (absent_container_ignored (a_patcher desired_both)
           (a_world (a_statefulset live_both)) "my-model"
           (a_statefulset live_both) live_both "sidecar"
           {[ "cpu" := PyInt 2 ]}
           ltac:(repeat split; reflexivity) eq_refl).
  vm_compute. intros H. apply list_elem_of_In in H.
  destruct H as [H|[H|[]]]; discriminate H.
Defined.




(** ** The drift check *)

(** X8.  The drift check reads nothing of the live container but the
    memory and cpu entries of its limits and requests: two containers
    whose resources agree on those four values get the same verdict,
    whatever their names, images, claims and other resource keys. *)
Theorem is_patched_reads_memory_cpu_only c1 c2 r1 r2 (resources : dict) :
  container_resources c1 = Some r1 →
  container_resources c2 = Some r2 →
  same_memory_cpu r1 r2 →
  _is_patched c1 resources = _is_patched c2 resources.
Proof.
  intros H1 H2 Hsame. unfold _is_patched. rewrite H1, H2.
  destruct (Hsame "memory" (or_introl eq_refl)) as [Hlm Hrm].
  destruct (Hsame "cpu" (or_intror eq_refl)) as [Hlc Hrc].
  unfold is_memory_patched, is_cpu_patched, dict_get.
  by rewrite Hlm, Hrm, Hlc, Hrc.
Qed.

Lemma is_patched_reads_memory_cpu_only_witness :
  _is_patched
    (a_container "app"
       (Some (quantities [("ephemeral-storage", PyStr "1Gi");
                          ("memory", PyStr "2Gi"); ("cpu", PyStr "2")])))
    {[ "memory" := PyStr "2Gi"; "cpu" := PyInt 2 ]}
  = _is_patched
      (mkContainer "other" None
         (Some (mkResourceRequirements (Some ["gpu"])
                  (Some (list_to_map [("memory", PyStr "2Gi");
                                      ("cpu", PyStr "2")]))
                  (Some (list_to_map [("memory", PyStr "2Gi");
                                      ("cpu", PyStr "2")])))))
      {[ "memory" := PyStr "2Gi"; "cpu" := PyInt 2 ]}.
Proof.
  eapply is_patched_reads_memory_cpu_only; [reflexivity|reflexivity|].
  intros key [->| ->]; split; reflexivity.
Defined.

(** X9.  The state a write leaves in a container passes the drift check
    of the same desired spec exactly when that spec names a cpu: without a
    cpu key the container just written is still reported as drifted. *)
Theorem written_state_in_sync_iff_cpu c (resources : dict) :
  _is_patched (set_resources c (_build_resource_requirements resources))
    resources
  = Ok (bool_decide (is_Some (resources !! "cpu"))).
Proof.
  unfold _is_patched. simpl. rewrite build_is_memory_patched. simpl.
  f_equal. destruct (resources !! "cpu") as [v|] eqn:Hcpu.
  - rewrite build_is_cpu_patched by eauto.
    symmetry. by apply bool_decide_eq_true_2.
  - rewrite bool_decide_eq_false_2 by (by intros []).
    unfold _build_resource_requirements, is_cpu_patched, dict_get.
    rewrite Hcpu. destruct (resources !! "memory"); simpl;
      by rewrite ?lookup_insert_ne, lookup_empty by done.
Qed.

(** X10.  The desired memory is compared as it is given: when it is an
    integer and the live limits do not hold an integer memory (the API
    returns quantities as strings), the drift check fails. *)
Theorem integer_memory_never_matches c r (resources : dict) n :
  container_resources c = Some r →
  resources !! "memory" = Some (PyInt n) →
  (∀ m, or_empty (rr_limits r) !! "memory" ≠ Some (PyInt m)) →
  _is_patched c resources = Ok false.
Proof.
  intros Hr Hmem Hlive. unfold _is_patched. rewrite Hr. f_equal.
  apply andb_false_iff. left. apply andb_false_iff. left.
  unfold py_eq, dict_get. rewrite Hmem. simpl.
  apply bool_decide_eq_false_2. intros Heq.
  destruct (or_empty (rr_limits r) !! "memory") as [m|] eqn:Hm;
    simpl in Heq; [|done].
  subst m. by apply (Hlive n).
Qed.

Lemma integer_memory_never_matches_witness :
  _is_patched
    (a_container "app"
       (Some (quantities [("memory", PyStr "1024"); ("cpu", PyStr "2")])))
    {[ "memory" := PyInt 1024; "cpu" := PyInt 2 ]} = Ok false.
Proof.
  eapply (integer_memory_never_matches _ _ _ 1024%Z);
    [reflexivity|reflexivity|].
  intros m H. vm_compute in H. discriminate H.
Defined.

(** ** Reconciling twice *)

Lemma reconcile_idempotent_with_cpu_witness :
  new_calls (_patch_statefulset (a_patcher desired_both))
    (snd (_patch_statefulset (a_patcher desired_both)
            (a_world (a_statefulset live_both))))
  = [GET "my-model" "my-app"].
Proof.
  apply (reconcile_idempotent_with_cpu (a_patcher desired_both)
           (a_world (a_statefulset live_both)) "my-model"
           (a_statefulset live_both) live_both
           ltac:(repeat split; reflexivity) eq_refl eq_refl eq_refl).
  intros c r Hin Hr. apply list_elem_of_In in Hin.
  destruct Hin as [<-|[<-|[]]]; vm_compute in Hr; injection Hr as <-;
    eexists; reflexivity.
Defined.

(** ** Teardown: failures before the DELETE, success, repetition *)

Ltac unfold_teardown :=
  unfold _remove_statefulset, try_except, mbind, M_bind, Client, _namespace,
    client_delete, respond, logger, raise, mret, M_ret; simpl.



(** X13.  A teardown that finds the object, on a server that accepts the
    DELETE, returns normally, logs the deletion, removes exactly that
    object from the cluster and keeps every other one. *)
Theorem teardown_deletes_the_object self w namespace statefulset :
  kube_config w = true →
  fst (_namespace w) = Ok namespace →
  api_fault w VDelete = None →
  cluster w !! (namespace, statefulset_name self) = Some statefulset →
  let w' := snd (_remove_statefulset self w) in
  fst (_remove_statefulset self w) = Ok tt
  ∧ cluster w' = delete (namespace, statefulset_name self) (cluster w)
  ∧ new_logs (_remove_statefulset self) w
    = [INFO_deleted (statefulset_name self)]
  ∧ new_calls (_remove_statefulset self) w
    = [DELETE namespace (statefulset_name self)].
Proof.
  intros Hcfg Hns Hfault Hobj. unfold _namespace in Hns. simpl in Hns.
  unfold new_logs, new_calls. unfold_teardown.
  rewrite Hcfg. simpl. rewrite Hns. simpl. rewrite Hfault, Hobj. simpl.
  by rewrite !drop_app_length.
Qed.

Lemma teardown_deletes_the_object_witness :
  cluster (snd (_remove_statefulset (a_patcher desired_both)
                  (a_world (a_statefulset live_both)))) = ∅.
Proof.
  pose proof (teardown_deletes_the_object (a_patcher desired_both)
                (a_world (a_statefulset live_both)) "my-model"
                (a_statefulset live_both) eq_refl eq_refl eq_refl eq_refl)
    as (_ & H & _).
  rewrite H. apply delete_singleton_eq.
Defined.

(** X14.  A 404 answer to the DELETE is swallowed without a trace: the
    handler returns normally, logs nothing and leaves the cluster as it
    was. *)
Theorem teardown_not_found_is_silent self w namespace :
  kube_config w = true →
  fst (_namespace w) = Ok namespace →
  fst (client_delete namespace (statefulset_name self) w)
  = Raise (ApiError 404) →
  fst (_remove_statefulset self w) = Ok tt
  ∧ new_logs (_remove_statefulset self) w = []
  ∧ cluster (snd (_remove_statefulset self w)) = cluster w.
Proof.
  intros Hcfg Hns. unfold _namespace in Hns. simpl in Hns.
  unfold new_logs. unfold_teardown.
  rewrite Hcfg. simpl. rewrite Hns. simpl.
  destruct (api_fault w VDelete) as [code|]; simpl.
  - intros [= ->]. simpl. by rewrite drop_all.
  - destruct (cluster w !! (namespace, statefulset_name self)); simpl;
      [done|].
    intros _. by rewrite drop_all.
Qed.

Lemma teardown_not_found_is_silent_witness :
  fst (_remove_statefulset (a_patcher desired_both)
         (mkWorld true (Some "my-model") ∅ (λ _, None) [] [])) = Ok tt
  ∧ new_logs (_remove_statefulset (a_patcher desired_both))
      (mkWorld true (Some "my-model") ∅ (λ _, None) [] []) = []
  ∧ cluster (snd (_remove_statefulset (a_patcher desired_both)
                    (mkWorld true (Some "my-model") ∅ (λ _, None) [] [])))
    = ∅.
Proof.
  apply (teardown_not_found_is_silent (a_patcher desired_both)
           (mkWorld true (Some "my-model") ∅ (λ _, None) [] [])
           "my-model"); reflexivity.
Defined.

(** A teardown that reaches its DELETE, step by step. *)
Lemma remove_statefulset_run self w namespace :
  kube_config w = true →
  namespace_of (namespace_file w) = Ok namespace →
  _remove_statefulset self w =
    let name := statefulset_name self in
    let w1 := record_call (DELETE namespace name) w in
    match api_fault w VDelete with
    | Some code =>
        if (code =? 404)%Z then (Ok tt, w1) else (Raise (ApiError code), w1)
    | None =>
        match cluster w !! (namespace, name) with
        | Some _ =>
            (Ok tt,
             record_log (INFO_deleted name)
               (set_cluster (delete (namespace, name) (cluster w)) w1))
        | None => (Ok tt, w1)
        end
    end.
Proof.
  intros Hcfg Hns. unfold_teardown. rewrite Hcfg. simpl. rewrite Hns. simpl.
  destruct (api_fault w VDelete) as [code|]; simpl.
  - by destruct (code =? 404)%Z.
  - by destruct (cluster w !! (namespace, statefulset_name self)).
Qed.

Lemma remove_statefulset_ok_inv self w :
  fst (_remove_statefulset self w) = Ok tt →
  kube_config w = true
  ∧ ∃ namespace, namespace_of (namespace_file w) = Ok namespace.
Proof.
  unfold_teardown. destruct (kube_config w); simpl; [|done].
  case_namespace w ns Hns; simpl; [|done..]. eauto.
Qed.

(** X15.  Teardown can be repeated: after a teardown that returned
    normally, a second teardown returns normally too and changes nothing in
    the cluster. *)
Theorem teardown_twice self w :
  fst (_remove_statefulset self w) = Ok tt →
  let w1 := snd (_remove_statefulset self w) in
  fst (_remove_statefulset self w1) = Ok tt
  ∧ cluster (snd (_remove_statefulset self w1)) = cluster w1.
Proof.
  intros Hok. simpl.
  destruct (remove_statefulset_ok_inv self w Hok) as (Hcfg & ns & Hns).
  revert Hok. rewrite (remove_statefulset_run self w ns Hcfg Hns).
  simpl. destruct (api_fault w VDelete) as [code|] eqn:Hfault.
  - destruct (code =? 404)%Z eqn:Hcode; simpl; [|done]. intros _.
    rewrite (remove_statefulset_run self _ ns) by done. simpl.
    by rewrite Hfault, Hcode.
  - destruct (cluster w !! (ns, statefulset_name self))
      eqn:Hobj; simpl; intros _;
      rewrite (remove_statefulset_run self _ ns) by done; simpl;
      rewrite Hfault.
    + by rewrite lookup_delete_eq.
    + by rewrite Hobj.
Qed.

Lemma teardown_twice_witness :
  fst (_remove_statefulset (a_patcher desired_both)
         (snd (_remove_statefulset (a_patcher desired_both)
                 (a_world (a_statefulset live_both))))) = Ok tt.
Proof.
  apply (teardown_twice (a_patcher desired_both)
           (a_world (a_statefulset live_both)) eq_refl).
Defined.

(** X16.  After a teardown that found and deleted the object, a
    reconcile raises the not-found error 404, logs it, and sends no PATCH:
    a reconcile never brings a deleted StatefulSet back. *)
Theorem reconcile_after_teardown self w namespace statefulset :
  kube_config w = true →
  fst (_namespace w) = Ok namespace →
  api_fault w VDelete = None →
  api_fault w VGet = None →
  cluster w !! (namespace, statefulset_name self) = Some statefulset →
  let w1 := snd (_remove_statefulset self w) in
  fst (_patch_statefulset self w1) = Raise (ApiError 404)
  ∧ new_logs (_patch_statefulset self) w1
    = [ERROR_failed_to_patch (ApiError 404)]
  ∧ patch_count (new_calls (_patch_statefulset self) w1) = 0
  ∧ cluster (snd (_patch_statefulset self w1)) = cluster w1.
Proof.
  intros Hcfg Hns Hdel Hget Hobj. unfold _namespace in Hns. simpl in Hns.
  unfold new_logs, new_calls, patch_count.
  rewrite (remove_statefulset_run self w namespace Hcfg Hns). simpl.
  rewrite Hdel, Hobj. simpl.
  unfold_reconcile. rewrite Hcfg. simpl. rewrite Hns. simpl.
  rewrite Hget, lookup_delete_eq. simpl.
  by rewrite !drop_app_length.
Qed.

Lemma reconcile_after_teardown_witness :
  fst (_patch_statefulset (a_patcher desired_both)
         (snd (_remove_statefulset (a_patcher desired_both)
                 (a_world (a_statefulset live_both)))))
  = Raise (ApiError 404).
Proof.
  apply (reconcile_after_teardown (a_patcher desired_both)
           (a_world (a_statefulset live_both)) "my-model"
           (a_statefulset live_both) eq_refl eq_refl eq_refl eq_refl eq_refl).
Defined.

(** ** Construction and event binding *)

Lemma foldl_observe h init (evts : list BoundEvent) :
  foldl (λ obs evt, observe evt h obs) init evts
  = (init ++ ((λ evt, (evt, h)) <$> evts))%list.
Proof.
  revert init. induction evts as [|evt evts IH]; intros init; simpl.
  - by rewrite app_nil_r.
  - rewrite IH. unfold observe. by rewrite <-(assoc_L (++)).
Qed.

(** The constructor stores the application name and the desired
    resources, and registers the three fixed observers followed by one
    observer per refresh event, in the order given. *)
Lemma init_registrations charm ru refresh :
  __init__ charm ru refresh
  = ({| statefulset_name := app_name charm; resource_updates := ru |},
     ([ (on "install", patch_statefulset_method);
        (on "update_status", patch_statefulset_method);
        (on "remove", remove_statefulset_method) ]
      ++ ((λ evt, (evt, patch_statefulset_method)) <$> refresh_list refresh))%list).
Proof.
  unfold __init__, _app. f_equal.
  destruct refresh as [|evt|[|evt evts]]; try done.
  by rewrite foldl_observe.
Qed.

(** X17.  After construction, the teardown handler is observed for the
    [remove] event and for no other event, whatever [refresh_event] is;
    the reconcile handler is observed for [install], for [update_status]
    and for the events of [refresh_event] (one event or a list), and for no
    other event: in particular not for [upgrade_charm] unless it is passed
    in. *)
Theorem init_bindings charm ru refresh evt :
  let observers := snd (__init__ charm ru refresh) in
  ((evt, remove_statefulset_method) ∈ observers ↔ evt = on "remove")
  ∧ ((evt, patch_statefulset_method) ∈ observers ↔
       evt = on "install" ∨ evt = on "update_status"
       ∨ evt ∈ refresh_list refresh).
Proof.
  cbv zeta. rewrite init_registrations. cbn [snd app].
  rewrite !elem_of_cons, !list_elem_of_fmap. split; split.
  - intros [[=]|[[=]|[[=]|(e & [=] & _)]]]; done.
  - intros ->. right. right. by left.
  - intros [[=]|[[=]|[[=]|(e & [= ->] & He)]]]; auto.
  - intros [->|[->|He]]; [by left|right; by left|].
    right. right. right. by exists evt.
Qed.

(** ** The namespace *)

Lemma lstrip_spec (t : list N) :
  ∃ l, t = (l ++ lstrip t)%list
       ∧ forallb py_isspace l = true ∧ clean_start (lstrip t) = true.
Proof.
  induction t as [|c t (l & Ht & Hl & Hclean)]; simpl.
  - by exists [].
  - destruct (py_isspace c) eqn:Hc.
    + exists (c :: l). simpl. rewrite Hc, Hl. by rewrite <-Ht.
    + exists []. simpl. by rewrite Hc.
Qed.

Lemma forallb_reverse {A} (f : A → bool) (l : list A) :
  forallb f (reverse l) = forallb f l.
Proof.
  apply eq_true_iff_eq. rewrite !forallb_forall.
  split; intros H x Hx; apply H; revert Hx;
    rewrite <-!list_elem_of_In, elem_of_reverse; done.
Qed.

Lemma clean_start_app_l (a b : list N) :
  clean_start (a ++ b)%list = true → clean_start a = true.
Proof. by destruct a. Qed.

(** X18.  Where the namespace file decodes to [text], the namespace is
    [text] without its leading and trailing whitespace and nothing else is
    removed: [text] is whitespace, then the namespace, then whitespace, and
    the namespace neither starts nor ends with a whitespace character
    (Unicode whitespace included).  Reading it changes nothing in the
    world. *)
Theorem namespace_is_stripped w content text :
  namespace_file w = Some content →
  read_text content = Some text →
  ∃ l t r,
    text = (l ++ t ++ r)%list
    ∧ forallb py_isspace l = true ∧ forallb py_isspace r = true
    ∧ clean_start t = true ∧ clean_start (reverse t) = true
    ∧ _namespace w = (Ok (utf8_encode t), w).
Proof.
  intros Hfile Htext. unfold _namespace, namespace_of, strip.
  rewrite Hfile, Htext.
  destruct (lstrip_spec text) as (l & Hl_eq & Hl & Hclean).
  destruct (lstrip_spec (reverse (lstrip text))) as (r & Hrev & Hr & Hend).
  set (u := lstrip (reverse (lstrip text))) in *.
  assert (lstrip text = (reverse u ++ reverse r)%list) as Ht.
  { by rewrite <-reverse_app, <-Hrev, reverse_involutive. }
  exists l, (reverse u), (reverse r).
  split; [by rewrite <-Ht|]. split; [done|].
  split; [by rewrite forallb_reverse|].
  split; [apply clean_start_app_l with (reverse r); by rewrite <-Ht|].
  split; [by rewrite reverse_involutive|done].
Qed.

(** A namespace followed by a no-break space and a line feed. *)
Lemma namespace_is_stripped_witness :
  ∃ l t r,
    [109; 121; 160; 10]%N = (l ++ t ++ r)%list
    ∧ forallb py_isspace l = true ∧ forallb py_isspace r = true
    ∧ clean_start t = true ∧ clean_start (reverse t) = true
    ∧ _namespace (mkWorld true (Some (bytes [109; 121; 194; 160; 10]%N)) ∅
                    (λ _, None) [] [])
      = (Ok (utf8_encode t),
         mkWorld true (Some (bytes [109; 121; 194; 160; 10]%N)) ∅
           (λ _, None) [] []).
Proof.
  apply (namespace_is_stripped
           (mkWorld true (Some (bytes [109; 121; 194; 160; 10]%N)) ∅
              (λ _, None) [] [])
           (bytes [109; 121; 194; 160; 10]%N) [109; 121; 160; 10]%N
           eq_refl eq_refl).
Defined.

Lemma py_isspace_false_ne_13 c : py_isspace c = false → (c =? 13)%N = false.
Proof.
  intros Hc. destruct (c =? 13)%N eqn:H13; [|done].
  apply N.eqb_eq in H13 as ->. done.
Qed.

Lemma plain_decode (s : string) :
  plain s = true → utf8_decode s = Some (byte_values s).
Proof.
  induction s as [|a s IH]; simpl; [done|].
  intros [[Hlt _]%andb_true_iff Hs]%andb_true_iff.
  by rewrite Hlt, IH.
Qed.

Lemma plain_no_space (s : string) :
  plain s = true → forallb (λ c, negb (py_isspace c)) (byte_values s) = true.
Proof.
  induction s as [|a s IH]; simpl; [done|].
  intros [[_ Hc]%andb_true_iff Hs]%andb_true_iff. by rewrite Hc, IH.
Qed.

Lemma no_space_newlines (t : list N) :
  forallb (λ c, negb (py_isspace c)) t = true → universal_newlines t = t.
Proof.
  induction t as [|c t IH]; simpl; [done|].
  intros [Hc%negb_true_iff Ht]%andb_true_iff.
  by rewrite (py_isspace_false_ne_13 c Hc), IH.
Qed.

Lemma no_space_lstrip (t : list N) :
  forallb (λ c, negb (py_isspace c)) t = true → lstrip t = t.
Proof.
  destruct t as [|c t]; simpl; [done|].
  by intros [->%negb_true_iff _]%andb_true_iff.
Qed.

Lemma plain_encode (s : string) :
  plain s = true → utf8_encode (byte_values s) = s.
Proof.
  induction s as [|a s IH]; simpl; [done|].
  intros [[Hlt _]%andb_true_iff Hs]%andb_true_iff.
  unfold utf8_encode_char. rewrite Hlt, IH by done. unfold bytes, byte. simpl.
  by rewrite Ascii.ascii_N_embedding.
Qed.

(** X19.  A namespace file that holds only ASCII characters, none of them
    whitespace, is returned as it is. *)
Theorem namespace_plain_content_verbatim w content :
  namespace_file w = Some content →
  plain content = true →
  _namespace w = (Ok content, w).
Proof.
  intros Hfile Hplain. unfold _namespace, namespace_of, read_text, strip.
  rewrite Hfile, (plain_decode content Hplain). simpl.
  pose proof (plain_no_space content Hplain) as Hns.
  rewrite (no_space_newlines _ Hns), (no_space_lstrip _ Hns).
  rewrite no_space_lstrip by (by rewrite forallb_reverse).
  by rewrite reverse_involutive, (plain_encode content Hplain).
Qed.

Lemma namespace_plain_content_verbatim_witness :
  _namespace (mkWorld true (Some "kube-system") ∅ (λ _, None) [] [])
  = (Ok "kube-system", mkWorld true (Some "kube-system") ∅ (λ _, None) [] []).
Proof.
  apply (namespace_plain_content_verbatim
           (mkWorld true (Some "kube-system") ∅ (λ _, None) [] [])
           "kube-system" eq_refl eq_refl).
Defined.

(** Reading on concrete contents: Unicode whitespace is stripped, line
    endings become line feeds, bytes that are not UTF-8 raise. *)
Example namespace_of_contents :
  namespace_of (Some (bytes [109; 121; 194; 160; 10]%N)) = Ok "my"
  ∧ namespace_of (Some (bytes [97; 13; 98]%N)) = Ok (bytes [97; 10; 98]%N)
  ∧ namespace_of (Some (bytes [32; 97; 13; 10; 98; 13; 10]%N))
    = Ok (bytes [97; 10; 98]%N)
  ∧ namespace_of (Some (bytes [255]%N)) = Raise UnicodeDecodeError
  ∧ namespace_of (Some "") = Ok ""
  ∧ namespace_of None = Raise OSError.
Proof. vm_compute. repeat split; reflexivity. Qed.

(** ** Keys of the desired spec other than memory and cpu *)

(** X20.  Of a desired spec only the [memory] and [cpu] entries are ever
    used: two specs that agree on those two keys give the same drift
    verdict on every container and the same written state, so any other
    resource name in the spec is neither compared nor written. *)
Theorem desired_other_keys_ignored (resources1 resources2 : dict) c :
  resources1 !! "memory" = resources2 !! "memory" →
  resources1 !! "cpu" = resources2 !! "cpu" →
  _is_patched c resources1 = _is_patched c resources2
  ∧ _build_resource_requirements resources1
    = _build_resource_requirements resources2.
Proof.
  intros Hmem Hcpu.
  unfold _is_patched, _build_resource_requirements, is_memory_patched,
    is_cpu_patched, dict_get.
  by rewrite Hmem, Hcpu.
Qed.

Lemma desired_other_keys_ignored_witness :
  _is_patched
    (a_container "app" (Some (quantities [("memory", PyStr "2Gi")])))
    {[ "memory" := PyStr "2Gi"; "cpu" := PyInt 2;
       "ephemeral-storage" := PyStr "1Gi" ]}
  = _is_patched
      (a_container "app" (Some (quantities [("memory", PyStr "2Gi")])))
      {[ "memory" := PyStr "2Gi"; "cpu" := PyInt 2 ]}
  ∧ _build_resource_requirements
      {[ "memory" := PyStr "2Gi"; "cpu" := PyInt 2;
         "ephemeral-storage" := PyStr "1Gi" ]}
    = _build_resource_requirements
        {[ "memory" := PyStr "2Gi"; "cpu" := PyInt 2 ]}.
Proof.
  apply (desired_other_keys_ignored
           ({[ "memory" := PyStr "2Gi"; "cpu" := PyInt 2;
               "ephemeral-storage" := PyStr "1Gi" ]} : dict)
           ({[ "memory" := PyStr "2Gi"; "cpu" := PyInt 2 ]} : dict));
    reflexivity.
Defined.
